(** * app/startup.py : best-effort model warm-up and weight listing

    A shallow embedding of the build-time start-up script.  The script
    talks to three collaborators: standard output, the DeepFace library
    (two imports and [DeepFace.build_model]) and the filesystem
    ([Path.home], [Path.exists], [Path.glob]).  Every collaborator is a
    field of an [environ] record, the script itself is written in a small
    state-and-exception monad whose state holds the filesystem and the
    trace of events the run has produced so far.

    The script is embedded twice.  The first embedding runs it where
    standard output takes every line and the library fails with
    instances of [Exception] only; the module [Py] runs it on any
    console and any library, and the facts that depend on how these
    behave are stated there, with the conditions they need.  The last
    theorem of the file shows that the first embedding is the second
    one on such collaborators. *)

From Stdlib Require Import List String Ascii Bool DecimalString Lia.
Import ListNotations.
Local Open Scope string_scope.

(** ** Text *)

Definition nl : string := String (ascii_of_nat 10) EmptyString.

(** Python's [s * n] on a string. *)
Fixpoint str_repeat (s : string) (n : nat) : string :=
  match n with
  | O => EmptyString
  | S k => s ++ str_repeat s k
  end.

(** [f"{n}"] for a non-negative [int]. *)
Definition str_of_nat (n : nat) : string :=
  NilEmpty.string_of_uint (Nat.to_uint n).

(** ** Exceptions

    The handlers of the script tell two classes apart: [ImportError]
    (with its subclasses, [ModuleNotFoundError] among them) and the rest
    of the [Exception] hierarchy.  [exc] ranges over the instances of
    [Exception], the errors a collaborator reports; [exc_msg e] is
    [str(e)]. *)

Inductive exc_class : Type :=
  | ImportError
  | OtherException.

Record exc : Type := mkExc { exc_cls : exc_class; exc_msg : string }.

Definition is_ImportError (e : exc) : bool :=
  match exc_cls e with
  | ImportError => true
  | OtherException => false
  end.

(** ** Paths (POSIX flavour of [pathlib.Path]) *)

Record path : Type := mkPath { anchor : string; parts : list string }.

(** [p / name] for a relative, single-component [name]. *)
Definition truediv (p : path) (name : string) : path :=
  mkPath (anchor p) (parts p ++ [name]).

Infix "//" := truediv (at level 40, left associativity).

(** [str(p)]. *)
Definition path_str (p : path) : string :=
  anchor p ++ String.concat "/" (parts p).

(** [p.name], the last component. *)
Definition path_name (p : path) : string := last (parts p) "".

(** ** The filesystem as the script observes it *)

Inductive entry_kind : Type :=
  | RegularFile
  | Directory.

(** One [os.DirEntry]. *)
Record dir_entry : Type := mkEntry { entry_name : string; entry_kind_of : entry_kind }.

(** What [os.scandir] gives on a directory: its entries in the order of
    the operating system, or an error.  [pathlib] swallows a
    [PermissionError] while globbing and lets any other [OSError]
    through. *)
Inductive scan_result : Type :=
  | ScanEntries (es : list dir_entry)
  | ScanPermissionError
  | ScanOSError (e : exc).

(** What a [stat] of a path gives. *)
Inductive stat_result : Type :=
  | StatMissing
  | StatError (e : exc)
  | StatFile
  | StatDir (scan : scan_result).

Definition filesystem : Type := path -> stat_result.

(** ** [fnmatch] on one path component

    [pathlib] compiles a wildcard component with [fnmatch.translate] and
    matches [entry.name] against it in full; a leading dot of the name
    gets no special treatment there.  The fragment below covers literal
    characters, [?] and [*]. *)

Fixpoint fnmatch_chars (pat name : list ascii) : bool :=
  match pat with
  | [] => match name with [] => true | _ :: _ => false end
  | c :: pat' =>
      if Ascii.eqb c "*"%char then
        (fix star (rest : list ascii) : bool :=
           fnmatch_chars pat' rest ||
           match rest with
           | [] => false
           | _ :: rest' => star rest'
           end) name
      else
        match name with
        | [] => false
        | d :: name' =>
            (Ascii.eqb c "?"%char || Ascii.eqb c d) && fnmatch_chars pat' name'
        end
  end.

Definition fnmatch (pat name : string) : bool :=
  fnmatch_chars (list_ascii_of_string pat) (list_ascii_of_string name).

(** ** Events of a run

    A call of the library is recorded with what it answered: [None] for a
    normal return, [Some e] for the exception it raised. *)

Inductive event : Type :=
  | EvPrint (line : string)
  | EvImportDeepFace (r : option exc)
  | EvBuildModel (model_name : string) (r : option exc)
  | EvImportFunctions (r : option exc)
  | EvHome
  | EvExists (p : path)
  | EvGlob (p : path) (pattern : string)
  | EvExit (code : nat).

Record world : Type := mkWorld { w_fs : filesystem; w_trace : list event }.

Definition emit (ev : event) (w : world) : world :=
  mkWorld (w_fs w) (w_trace w ++ [ev]).

(** The lines written to standard output, oldest first. *)
Fixpoint printed (t : list event) : list string :=
  match t with
  | [] => []
  | EvPrint s :: t' => s :: printed t'
  | _ :: t' => printed t'
  end.

(** The model identifiers handed to [DeepFace.build_model], oldest first. *)
Fixpoint attempted (t : list event) : list string :=
  match t with
  | [] => []
  | EvBuildModel m _ :: t' => m :: attempted t'
  | _ :: t' => attempted t'
  end.

(** ** The collaborators

    The library's operations may write to the filesystem (the import
    creates the cache folders, [build_model] downloads weights), so each
    of the two maps a filesystem to a new one.  [None] is a normal
    return. *)

Record environ : Type := mkEnv {
  import_deepface : filesystem -> option exc * filesystem;
  build_model : string -> filesystem -> option exc * filesystem;
  import_functions : option exc;
  home_dir : exc + path
}.

(** ** The monad: state, exceptions, and [sys.exit] *)

Inductive outcome (A : Type) : Type :=
  | Ret (a : A)
  | Raise (e : exc)
  | SysExit (code : nat).
Arguments Ret {A} a.
Arguments Raise {A} e.
Arguments SysExit {A} code.

Definition M (A : Type) : Type := world -> outcome A * world.

Definition ret {A} (a : A) : M A := fun w => (Ret a, w).

Definition bind {A B} (m : M A) (k : A -> M B) : M B :=
  fun w =>
    match m w with
    | (Ret a, w') => k a w'
    | (Raise e, w') => (Raise e, w')
    | (SysExit c, w') => (SysExit c, w')
    end.

Declare Scope py_scope.
Delimit Scope py_scope with py.
Notation "x <- m ;; k" := (bind m (fun x => k))
  (at level 100, m at next level, right associativity) : py_scope.
Notation "m ;; k" := (bind m (fun _ => k))
  (at level 100, right associativity) : py_scope.
Local Open Scope py_scope.

(** [try: body / except Exception as e: handler e].  [SystemExit] is not
    an [Exception] and passes through. *)
Definition try_except {A} (body : M A) (handler : exc -> M A) : M A :=
  fun w =>
    match body w with
    | (Raise e, w') => handler e w'
    | r => r
    end.

(** A [for] loop whose body returns nothing. *)
Fixpoint for_each {A} (xs : list A) (body : A -> M unit) : M unit :=
  match xs with
  | [] => ret tt
  | x :: xs' => body x ;; for_each xs' body
  end.

(** ** Primitive operations *)

Definition print (s : string) : M unit :=
  fun w => (Ret tt, emit (EvPrint s) w).

Definition of_option (r : option exc) : outcome unit :=
  match r with
  | None => Ret tt
  | Some e => Raise e
  end.

Section Script.

Variable env : environ.

(** [from deepface import DeepFace] *)
Definition do_import_deepface : M unit :=
  fun w =>
    let '(r, fs') := import_deepface env (w_fs w) in
    (of_option r, mkWorld fs' (w_trace w ++ [EvImportDeepFace r])).

(** [DeepFace.build_model(model_name)] *)
Definition do_build_model (model_name : string) : M unit :=
  fun w =>
    let '(r, fs') := build_model env model_name (w_fs w) in
    (of_option r, mkWorld fs' (w_trace w ++ [EvBuildModel model_name r])).

(** [from deepface.commons import functions] *)
Definition do_import_functions : M unit :=
  fun w =>
    let r := import_functions env in
    (of_option r, emit (EvImportFunctions r) w).

(** [Path.home()] *)
Definition path_home : M path :=
  fun w =>
    match home_dir env with
    | inl e => (Raise e, emit EvHome w)
    | inr p => (Ret p, emit EvHome w)
    end.

(** [p.exists()] *)
Definition path_exists (p : path) : M bool :=
  fun w =>
    let w1 := emit (EvExists p) w in
    match w_fs w p with
    | StatMissing => (Ret false, w1)
    | StatError e => (Raise e, w1)
    | StatFile => (Ret true, w1)
    | StatDir _ => (Ret true, w1)
    end.

(** [list(p.glob(pattern))] for a pattern of one component: the children
    of [p] whose name matches, in [scandir] order; nothing when [p] is
    not a directory. *)
Definition path_glob (p : path) (pattern : string) : M (list path) :=
  fun w =>
    let w1 := emit (EvGlob p pattern) w in
    match w_fs w p with
    | StatDir (ScanEntries es) =>
        (Ret (map (fun e => p // entry_name e)
                  (filter (fun e => fnmatch pattern (entry_name e)) es)), w1)
    | StatDir ScanPermissionError => (Ret [], w1)
    | StatDir (ScanOSError e) => (Raise e, w1)
    | StatError e => (Raise e, w1)
    | StatMissing => (Ret [], w1)
    | StatFile => (Ret [], w1)
    end.

(** [sys.exit(code)] *)
Definition sys_exit {A} (code : nat) : M A :=
  fun w => (SysExit code, emit (EvExit code) w).

(** ** The script *)

Definition models : list string :=
  [ "Facenet" ].

Definition detectors : list string :=
  [ "opencv" ].

Definition bar : string := str_repeat "=" 60.

(** Body of the first loop, lines 37-43. *)
Definition load_model (model_name : string) : M unit :=
  print (nl ++ "→ Loading " ++ model_name ++ "...") ;;
  try_except
    (do_build_model model_name ;;
     print ("✓ " ++ model_name ++ " loaded successfully"))
    (fun e => print ("✗ Failed to load " ++ model_name ++ ": " ++ exc_msg e)).

(** Body of the second loop, lines 47-54. *)
Definition probe_detector (detector : string) : M unit :=
  print (nl ++ "→ Loading " ++ detector ++ " detector...") ;;
  try_except
    (do_import_functions ;;
     print ("✓ " ++ detector ++ " detector available"))
    (fun _ => print ("⚠ Note: " ++ detector ++ " detector will load on first use")).

(** Lines 13-59, with the two list literals as parameters. *)
Definition preload_body (ms ds : list string) : M bool :=
  print bar ;;
  print "Starting DeepFace model pre-loading..." ;;
  print bar ;;
  do_import_deepface ;;
  print (nl ++ "Pre-loading " ++ str_of_nat (List.length ms) ++ " recognition model(s)...") ;;
  for_each ms load_model ;;
  print (nl ++ nl ++ "Pre-loading " ++ str_of_nat (List.length ds) ++ " detector(s)...") ;;
  for_each ds probe_detector ;;
  print (nl ++ bar) ;;
  print "✓ DeepFace model pre-loading complete!" ;;
  print bar ;;
  ret true.

(** The two [except] clauses of lines 61-67, tried in order. *)
Definition preload_handler (e : exc) : M bool :=
  if is_ImportError e then
    print "✗ DeepFace not installed. Skipping model pre-loading." ;;
    ret false
  else
    print ("✗ Error during model pre-loading: " ++ exc_msg e) ;;
    ret false.

Definition preload_with (ms ds : list string) : M bool :=
  try_except (preload_body ms ds) preload_handler.

Definition preload_deepface_models : M bool :=
  preload_with models detectors.

(** [home / ".deepface" / "weights"], lines 73-74. *)
Definition weights_dir_of (home : path) : path :=
  home // ".deepface" // "weights".

Definition verify_weights : M unit :=
  try_except
    (home <- path_home ;;
     let weights_dir := weights_dir_of home in
     found <- path_exists weights_dir ;;
     if (found : bool) then
       weight_files <- path_glob weights_dir "*" ;;
       print (nl ++ "✓ Found " ++ str_of_nat (List.length weight_files)
                 ++ " weight file(s) in " ++ path_str weights_dir) ;;
       for_each (firstn 5 weight_files)
                (fun weight_file => print ("  - " ++ path_name weight_file)) ;;
       if Nat.ltb 5 (List.length weight_files) then
         print ("  ... and " ++ str_of_nat (List.length weight_files - 5) ++ " more")
       else ret tt
     else
       print (nl ++ "⚠ Weights directory not found: " ++ path_str weights_dir))
    (fun e => print ("⚠ Could not verify weights: " ++ exc_msg e)).

(** The [__main__] block, lines 89-104. *)
Definition main : M unit :=
  print (nl ++ "🚀 Running startup script..." ++ nl) ;;
  success <- preload_deepface_models ;;
  verify_weights ;;
  if (success : bool) then
    print (nl ++ "✓ Startup script completed successfully") ;;
    sys_exit 0
  else
    print (nl ++ "⚠ Startup script completed with warnings") ;;
    sys_exit 0.

End Script.

(** Exit status of the interpreter: the argument of [sys.exit], 1 for an
    exception nobody caught, 0 when the module runs to its end. *)
Definition exit_status {A} (r : outcome A) : nat :=
  match r with
  | Ret _ => 0
  | Raise _ => 1
  | SysExit code => code
  end.

Definition run_script (env : environ) (w : world) : nat * world :=
  let '(r, w') := main env w in (exit_status r, w').

Definition start (fs : filesystem) : world := mkWorld fs [].

(** ** Sample environments *)

Definition root_home : path := mkPath "/" ["root"].

Definition path_eqb (p q : path) : bool :=
  String.eqb (path_str p) (path_str q).

Definition fs_with (dir : path) (st : stat_result) : filesystem :=
  fun p => if path_eqb p dir then st else StatMissing.

Definition file (name : string) : dir_entry := mkEntry name RegularFile.

Definition lib_ok : environ :=
  mkEnv (fun fs => (None, fs)) (fun _ fs => (None, fs)) None (inr root_home).

Definition seven_files : list dir_entry :=
  map file ["a.h5"; "b.h5"; "c.h5"; "d.h5"; "e.h5"; "f.h5"; "g.h5"].

(** ** The lines of the report, by name *)

Definition loading_line (m : string) : string :=
  (nl ++ "→ Loading " ++ m ++ "...")%string.
Definition loaded_line (m : string) : string :=
  ("✓ " ++ m ++ " loaded successfully")%string.
Definition failed_line (m : string) (e : exc) : string :=
  ("✗ Failed to load " ++ m ++ ": " ++ exc_msg e)%string.
Definition probing_line (d : string) : string :=
  (nl ++ "→ Loading " ++ d ++ " detector...")%string.
Definition available_line (d : string) : string :=
  ("✓ " ++ d ++ " detector available")%string.
Definition deferred_line (d : string) : string :=
  ("⚠ Note: " ++ d ++ " detector will load on first use")%string.
Definition not_installed_line : string :=
  "✗ DeepFace not installed. Skipping model pre-loading.".
Definition preload_error_line (e : exc) : string :=
  ("✗ Error during model pre-loading: " ++ exc_msg e)%string.
Definition found_line (n : nat) (dir : path) : string :=
  (nl ++ "✓ Found " ++ str_of_nat n ++ " weight file(s) in " ++ path_str dir)%string.
Definition item_line (name : string) : string := ("  - " ++ name)%string.
Definition more_line (k : nat) : string :=
  ("  ... and " ++ str_of_nat k ++ " more")%string.
Definition not_found_line (dir : path) : string :=
  (nl ++ "⚠ Weights directory not found: " ++ path_str dir)%string.
Definition verify_error_line (e : exc) : string :=
  ("⚠ Could not verify weights: " ++ exc_msg e)%string.

Definition models_header (n : nat) : string :=
  (nl ++ "Pre-loading " ++ str_of_nat n ++ " recognition model(s)...")%string.
Definition detectors_header (n : nat) : string :=
  (nl ++ nl ++ "Pre-loading " ++ str_of_nat n ++ " detector(s)...")%string.

Definition banner : list string :=
  [bar; "Starting DeepFace model pre-loading..."%string; bar].
Definition footer : list string :=
  [(nl ++ bar)%string; "✓ DeepFace model pre-loading complete!"%string; bar].

Definition import_report (e : exc) : string :=
  if is_ImportError e then not_installed_line else preload_error_line e.



(** ** What a trace tells *)

(** The paths the run has asked the filesystem about. *)
Fixpoint inspected (t : list event) : list path :=
  match t with
  | [] => []
  | EvExists p :: t' => p :: inspected t'
  | EvGlob p _ :: t' => p :: inspected t'
  | _ :: t' => inspected t'
  end.

(** The answers of the probes of the second loop, oldest first. *)
Fixpoint probes (t : list event) : list (option exc) :=
  match t with
  | [] => []
  | EvImportFunctions r :: t' => r :: probes t'
  | _ :: t' => probes t'
  end.

(** Events and standard output of a computation started on filesystem
    [fs] with an empty history. *)
Definition events_of {A} (m : M A) (fs : filesystem) : list event :=
  w_trace (snd (m (start fs))).

Definition output_of {A} (m : M A) (fs : filesystem) : list string :=
  printed (events_of m fs).

Definition import_succeeds (env : environ) (fs : filesystem) : bool :=
  match fst (import_deepface env fs) with
  | None => true
  | Some _ => false
  end.

(** ** The runs, as functions of what the collaborators answer

    The lemmas of the second part show that the script produces these
    traces; the claims are stated on the script. *)

Section Traces.

Variable env : environ.

Definition model_report (m : string) (r : option exc) : string :=
  match r with
  | None => loaded_line m
  | Some e => failed_line m e
  end.

(** Events and final filesystem of the first loop from filesystem [fs]. *)
Fixpoint models_run (ms : list string) (fs : filesystem)
  : list event * filesystem :=
  match ms with
  | [] => ([], fs)
  | m :: ms' =>
      let '(r, fs1) := build_model env m fs in
      let '(t, fs2) := models_run ms' fs1 in
      (EvPrint (loading_line m) :: EvBuildModel m r
         :: EvPrint (model_report m r) :: t, fs2)
  end.

Definition detector_report (d : string) : string :=
  match import_functions env with
  | None => available_line d
  | Some _ => deferred_line d
  end.

Definition detectors_run (ds : list string) : list event :=
  flat_map (fun d => [EvPrint (probing_line d);
                      EvImportFunctions (import_functions env);
                      EvPrint (detector_report d)]) ds.

(** Events of a run of the preloader whose import went through and left
    the filesystem [fs1]. *)
Definition preload_ok_trace (ms ds : list string) (fs1 : filesystem) : list event :=
  map EvPrint banner
  ++ EvImportDeepFace None :: EvPrint (models_header (List.length ms))
  :: fst (models_run ms fs1)
  ++ EvPrint (detectors_header (List.length ds))
  :: detectors_run ds
  ++ map EvPrint footer.

Definition preload_failed_trace (e : exc) : list event :=
  map EvPrint banner ++ [EvImportDeepFace (Some e); EvPrint (import_report e)].

(** What [list(weights_dir.glob("*"))] evaluates to on a path whose
    [stat] is [st]. *)
Definition glob_star (dir : path) (st : stat_result) : exc + list path :=
  match st with
  | StatDir (ScanEntries es) => inr (map (fun e => dir // entry_name e) es)
  | StatDir ScanPermissionError => inr []
  | StatDir (ScanOSError e) => inl e
  | StatError e => inl e
  | StatMissing => inr []
  | StatFile => inr []
  end.

(** Events of lines 78-82 for the list [files]. *)
Definition listing_trace (dir : path) (files : list path) : list event :=
  EvPrint (found_line (List.length files) dir)
  :: map (fun f => EvPrint (item_line (path_name f))) (firstn 5 files)
  ++ (if Nat.ltb 5 (List.length files)
      then [EvPrint (more_line (List.length files - 5))] else []).

Definition verify_trace (fs : filesystem) : list event :=
  EvHome ::
  match home_dir env with
  | inl e => [EvPrint (verify_error_line e)]
  | inr h =>
      let dir := weights_dir_of h in
      EvExists dir ::
      match fs dir with
      | StatMissing => [EvPrint (not_found_line dir)]
      | StatError e => [EvPrint (verify_error_line e)]
      | st =>
          EvGlob dir "*" ::
          match glob_star dir st with
          | inl e => [EvPrint (verify_error_line e)]
          | inr files => listing_trace dir files
          end
      end
  end.

End Traces.

(** ** More sample environments *)

(** A library whose [build_model] fails on one identifier only. *)
Definition lib_flaky : environ :=
  mkEnv (fun fs => (None, fs))
        (fun m fs =>
           if String.eqb m "VGG-Face"
           then (Some (mkExc OtherException "download failed"), fs)
           else (None, fs))
        None (inr root_home).


Definition empty_fs : filesystem := fun _ => StatMissing.

Definition seven_fs : filesystem :=
  fs_with (weights_dir_of root_home) (StatDir (ScanEntries seven_files)).



(** ** The entry point, by name *)

Definition intro_line : string :=
  (nl ++ "🚀 Running startup script..." ++ nl)%string.
Definition success_line : string :=
  (nl ++ "✓ Startup script completed successfully")%string.
Definition warnings_line : string :=
  (nl ++ "⚠ Startup script completed with warnings")%string.

(** The last line of lines 98-104 for the flag [ok]. *)
Definition closing_line (ok : bool) : string :=
  if ok then success_line else warnings_line.

(** Events and final filesystem of the preloader from filesystem [fs]. *)
Definition preload_trace (env : environ) (ms ds : list string)
           (fs : filesystem) : list event :=
  match import_deepface env fs with
  | (None, fs1) => preload_ok_trace env ms ds fs1
  | (Some e, _) => preload_failed_trace e
  end.

Definition preload_fs (env : environ) (ms : list string)
           (fs : filesystem) : filesystem :=
  match import_deepface env fs with
  | (None, fs1) => snd (models_run env ms fs1)
  | (Some _, fs1) => fs1
  end.

(** The filesystem after the library has been asked for the models [ms]
    one after the other, whatever it answered. *)
Definition after_builds (env : environ) (ms : list string)
           (fs : filesystem) : filesystem :=
  fold_left (fun f m => snd (build_model env m f)) ms fs.

(** ** Sample environments, continued *)


(** A library that stores the weights of a model when it builds it. *)
Definition lib_downloading : environ :=
  mkEnv (fun fs => (None, fs))
        (fun m _ =>
           (None,
            fs_with (weights_dir_of root_home)
                    (StatDir (ScanEntries [file (m ++ "_weights.h5")]))))
        None (inr root_home).

(** A library that refuses every model. *)
Definition lib_refusing : environ :=
  mkEnv (fun fs => (None, fs))
        (fun _ fs => (Some (mkExc OtherException "no network"), fs))
        None (inr root_home).




(** * The script on any console and any library

    The embedding above runs the script where nothing but the calls of
    the library and of the filesystem can fail.  The module [Py] lifts
    these restrictions: [print] raises what the console raises on a line
    it cannot write, the text of an exception is the result of [str(e)],
    which can raise as well, the library can raise [SystemExit] and
    [KeyboardInterrupt], which no [except Exception] catches, and the
    import inside the second loop is executed anew, with its own answer
    and its own effect on the filesystem, at every round. *)

Module Py.

(** What a [raise] can carry up the stack. *)
Inductive throwable : Type :=
  | Exn (e : exc)
  | SystemExit (code : nat)
  | KeyboardInterrupt.

Inductive event : Type :=
  | EvPrint (line : string)
  | EvImportDeepFace (r : option throwable)
  | EvBuildModel (model_name : string) (r : option throwable)
  | EvImportFunctions (r : option throwable)
  | EvHome
  | EvExists (p : path)
  | EvGlob (p : path) (pattern : string).

Record world : Type := mkWorld { w_fs : filesystem; w_trace : list event }.

Definition emit (ev : event) (w : world) : world :=
  mkWorld (w_fs w) (w_trace w ++ [ev]).

Definition start (fs : filesystem) : world := mkWorld fs [].

(** The lines standard output has taken, oldest first. *)
Fixpoint printed (t : list event) : list string :=
  match t with
  | [] => []
  | EvPrint s :: t' => s :: printed t'
  | _ :: t' => printed t'
  end.

(** The model identifiers handed to [DeepFace.build_model], oldest first. *)
Fixpoint attempted (t : list event) : list string :=
  match t with
  | [] => []
  | EvBuildModel m _ :: t' => m :: attempted t'
  | _ :: t' => attempted t'
  end.

(** The answers of the imports of the second loop, oldest first. *)
Fixpoint probes (t : list event) : list (option throwable) :=
  match t with
  | [] => []
  | EvImportFunctions r :: t' => r :: probes t'
  | _ :: t' => probes t'
  end.

(** [write s] is what [sys.stdout] raises when [print] hands it the line
    [s] ([UnicodeEncodeError], [BrokenPipeError], ...), [str_raises e]
    what [str(e)] raises; [None] is a normal return throughout.  The
    three operations of the library answer on the filesystem they find
    and leave the one they have made. *)
Record environ : Type := mkEnv {
  write : string -> option exc;
  str_raises : exc -> option exc;
  import_deepface : filesystem -> option throwable * filesystem;
  build_model : string -> filesystem -> option throwable * filesystem;
  import_functions : filesystem -> option throwable * filesystem;
  home_dir : exc + path
}.

Inductive outcome (A : Type) : Type :=
  | Ret (a : A)
  | Throw (t : throwable).
Arguments Ret {A} a.
Arguments Throw {A} t.

Definition M (A : Type) : Type := world -> outcome A * world.

Definition ret {A} (a : A) : M A := fun w => (Ret a, w).

Definition bind {A B} (m : M A) (k : A -> M B) : M B :=
  fun w =>
    match m w with
    | (Ret a, w') => k a w'
    | (Throw t, w') => (Throw t, w')
    end.

Declare Scope full_scope.
Delimit Scope full_scope with full.
Notation "x <- m ;; k" := (bind m (fun x => k))
  (at level 100, m at next level, right associativity) : full_scope.
Notation "m ;; k" := (bind m (fun _ => k))
  (at level 100, right associativity) : full_scope.
Local Open Scope full_scope.

(** [try: body / except Exception as e: handler e]: an instance of
    [Exception] goes to the handler, anything else goes on up. *)
Definition try_except {A} (body : M A) (handler : exc -> M A) : M A :=
  fun w =>
    match body w with
    | (Throw (Exn e), w') => handler e w'
    | r => r
    end.

Fixpoint for_each {A} (xs : list A) (body : A -> M unit) : M unit :=
  match xs with
  | [] => ret tt
  | x :: xs' => body x ;; for_each xs' body
  end.

Definition of_answer (r : option throwable) : outcome unit :=
  match r with
  | None => Ret tt
  | Some t => Throw t
  end.

Section Script.

Variable env : environ.

(** [print(s)] *)
Definition print (s : string) : M unit :=
  fun w =>
    match write env s with
    | None => (Ret tt, emit (EvPrint s) w)
    | Some e => (Throw (Exn e), w)
    end.

(** [{e}] inside an f-string: [str(e)]. *)
Definition str_exc (e : exc) : M string :=
  fun w =>
    match str_raises env e with
    | None => (Ret (exc_msg e), w)
    | Some x => (Throw (Exn x), w)
    end.

(** [from deepface import DeepFace] *)
Definition do_import_deepface : M unit :=
  fun w =>
    let '(r, fs') := import_deepface env (w_fs w) in
    (of_answer r, mkWorld fs' (w_trace w ++ [EvImportDeepFace r])).

(** [DeepFace.build_model(model_name)] *)
Definition do_build_model (model_name : string) : M unit :=
  fun w =>
    let '(r, fs') := build_model env model_name (w_fs w) in
    (of_answer r, mkWorld fs' (w_trace w ++ [EvBuildModel model_name r])).

(** [from deepface.commons import functions] *)
Definition do_import_functions : M unit :=
  fun w =>
    let '(r, fs') := import_functions env (w_fs w) in
    (of_answer r, mkWorld fs' (w_trace w ++ [EvImportFunctions r])).

(** [Path.home()] *)
Definition path_home : M path :=
  fun w =>
    match home_dir env with
    | inl e => (Throw (Exn e), emit EvHome w)
    | inr p => (Ret p, emit EvHome w)
    end.

(** [p.exists()] *)
Definition path_exists (p : path) : M bool :=
  fun w =>
    let w1 := emit (EvExists p) w in
    match w_fs w p with
    | StatMissing => (Ret false, w1)
    | StatError e => (Throw (Exn e), w1)
    | StatFile => (Ret true, w1)
    | StatDir _ => (Ret true, w1)
    end.

(** [list(p.glob(pattern))] for a pattern of one component. *)
Definition path_glob (p : path) (pattern : string) : M (list path) :=
  fun w =>
    let w1 := emit (EvGlob p pattern) w in
    match w_fs w p with
    | StatDir (ScanEntries es) =>
        (Ret (map (fun e => p // entry_name e)
                  (filter (fun e => fnmatch pattern (entry_name e)) es)), w1)
    | StatDir ScanPermissionError => (Ret [], w1)
    | StatDir (ScanOSError e) => (Throw (Exn e), w1)
    | StatError e => (Throw (Exn e), w1)
    | StatMissing => (Ret [], w1)
    | StatFile => (Ret [], w1)
    end.

(** [sys.exit(code)] *)
Definition sys_exit {A} (code : nat) : M A :=
  fun w => (Throw (SystemExit code), w).

(** Body of the first loop, lines 37-43. *)
Definition load_model (model_name : string) : M unit :=
  print (nl ++ "→ Loading " ++ model_name ++ "...") ;;
  try_except
    (do_build_model model_name ;;
     print ("✓ " ++ model_name ++ " loaded successfully"))
    (fun e =>
       msg <- str_exc e ;;
       print ("✗ Failed to load " ++ model_name ++ ": " ++ msg)).

(** Body of the second loop, lines 47-54. *)
Definition probe_detector (detector : string) : M unit :=
  print (nl ++ "→ Loading " ++ detector ++ " detector...") ;;
  try_except
    (do_import_functions ;;
     print ("✓ " ++ detector ++ " detector available"))
    (fun _ => print ("⚠ Note: " ++ detector ++ " detector will load on first use")).

(** Lines 13-59, with the two list literals as parameters. *)
Definition preload_body (ms ds : list string) : M bool :=
  print bar ;;
  print "Starting DeepFace model pre-loading..." ;;
  print bar ;;
  do_import_deepface ;;
  print (nl ++ "Pre-loading " ++ str_of_nat (List.length ms) ++ " recognition model(s)...") ;;
  for_each ms load_model ;;
  print (nl ++ nl ++ "Pre-loading " ++ str_of_nat (List.length ds) ++ " detector(s)...") ;;
  for_each ds probe_detector ;;
  print (nl ++ bar) ;;
  print "✓ DeepFace model pre-loading complete!" ;;
  print bar ;;
  ret true.

(** The two [except] clauses of lines 61-67, tried in order. *)
Definition preload_handler (e : exc) : M bool :=
  if is_ImportError e then
    print "✗ DeepFace not installed. Skipping model pre-loading." ;;
    ret false
  else
    msg <- str_exc e ;;
    print ("✗ Error during model pre-loading: " ++ msg) ;;
    ret false.

Definition preload_with (ms ds : list string) : M bool :=
  try_except (preload_body ms ds) preload_handler.

Definition preload_deepface_models : M bool :=
  preload_with models detectors.

Definition verify_weights : M unit :=
  try_except
    (home <- path_home ;;
     let weights_dir := weights_dir_of home in
     found <- path_exists weights_dir ;;
     if (found : bool) then
       weight_files <- path_glob weights_dir "*" ;;
       print (nl ++ "✓ Found " ++ str_of_nat (List.length weight_files)
                 ++ " weight file(s) in " ++ path_str weights_dir) ;;
       for_each (firstn 5 weight_files)
                (fun weight_file => print ("  - " ++ path_name weight_file)) ;;
       if Nat.ltb 5 (List.length weight_files) then
         print ("  ... and " ++ str_of_nat (List.length weight_files - 5) ++ " more")
       else ret tt
     else
       print (nl ++ "⚠ Weights directory not found: " ++ path_str weights_dir))
    (fun e =>
       msg <- str_exc e ;;
       print ("⚠ Could not verify weights: " ++ msg)).

(** The [__main__] block, lines 89-104. *)
Definition main : M unit :=
  print (nl ++ "🚀 Running startup script..." ++ nl) ;;
  success <- preload_deepface_models ;;
  verify_weights ;;
  if (success : bool) then
    print (nl ++ "✓ Startup script completed successfully") ;;
    sys_exit 0
  else
    print (nl ++ "⚠ Startup script completed with warnings") ;;
    sys_exit 0.

End Script.

(** Exit status of the interpreter as a POSIX shell reports it: the low
    eight bits of the argument of [sys.exit], 1 after an exception nobody
    caught, 130 after [KeyboardInterrupt], 0 when the module runs to its
    end. *)
Definition exit_status {A} (r : outcome A) : nat :=
  match r with
  | Ret _ => 0
  | Throw (Exn _) => 1
  | Throw (SystemExit code) => Nat.modulo code 256
  | Throw KeyboardInterrupt => 130
  end.

Definition run_script (env : environ) (w : world) : nat * world :=
  let '(r, w') := main env w in (exit_status r, w').

Definition events_of {A} (m : M A) (fs : filesystem) : list event :=
  w_trace (snd (m (start fs))).

Definition output_of {A} (m : M A) (fs : filesystem) : list string :=
  printed (events_of m fs).

Definition import_succeeds (env : environ) (fs : filesystem) : bool :=
  match fst (import_deepface env fs) with
  | None => true
  | Some _ => false
  end.

(** ** Conditions on the collaborators *)

(** Standard output takes every line. *)
Definition console_accepts (env : environ) : Prop :=
  forall s, write env s = None.

(** Every exception has a text. *)
Definition str_total (env : environ) : Prop :=
  forall e, str_raises env e = None.

Definition is_error (r : option throwable) : Prop :=
  match r with
  | None => True
  | Some (Exn _) => True
  | Some (SystemExit _) => False
  | Some KeyboardInterrupt => False
  end.

(** What the library raises is an instance of [Exception]. *)
Definition raises_errors_only (env : environ) : Prop :=
  (forall fs, is_error (fst (import_deepface env fs)))
  /\ (forall m fs, is_error (fst (build_model env m fs)))
  /\ (forall fs, is_error (fst (import_functions env fs))).

Definition tame (env : environ) : Prop :=
  console_accepts env /\ str_total env /\ raises_errors_only env.

(** [m] gets at most [a] more lines through to standard output when it
    returns and at most [b] more when it raises. *)
Definition prints_within {A} (m : M A) (a b : nat) : Prop :=
  forall w,
    List.length (printed (w_trace (snd (m w))))
    <= List.length (printed (w_trace w))
       + match fst (m w) with
         | Ret _ => a
         | Throw _ => b
         end.

(** ** The runs on tame collaborators, as functions of their answers *)

(** What follows a call of [build_model] that answered [r]. *)
Definition model_outcome (m : string) (r : option throwable) : list event :=
  match r with
  | None => [EvPrint (loaded_line m)]
  | Some (Exn e) => [EvPrint (failed_line m e)]
  | Some _ => []
  end.

(** What follows an import of the second loop that answered [r]. *)
Definition probe_outcome (d : string) (r : option throwable) : list event :=
  match r with
  | None => [EvPrint (available_line d)]
  | Some (Exn _) => [EvPrint (deferred_line d)]
  | Some _ => []
  end.

Section Traces.

Variable env : environ.

Fixpoint models_run (ms : list string) (fs : filesystem)
  : list event * filesystem :=
  match ms with
  | [] => ([], fs)
  | m :: ms' =>
      let '(r, fs1) := build_model env m fs in
      let '(t, fs2) := models_run ms' fs1 in
      (EvPrint (loading_line m) :: EvBuildModel m r :: model_outcome m r ++ t,
       fs2)
  end.

Fixpoint detectors_run (ds : list string) (fs : filesystem)
  : list event * filesystem :=
  match ds with
  | [] => ([], fs)
  | d :: ds' =>
      let '(r, fs1) := import_functions env fs in
      let '(t, fs2) := detectors_run ds' fs1 in
      (EvPrint (probing_line d) :: EvImportFunctions r :: probe_outcome d r ++ t,
       fs2)
  end.

(** The run of the preloader after an import that left [fs1]. *)
Definition preload_ok_trace (ms ds : list string) (fs1 : filesystem)
  : list event :=
  map EvPrint banner
  ++ EvImportDeepFace None :: EvPrint (models_header (List.length ms))
  :: fst (models_run ms fs1)
  ++ EvPrint (detectors_header (List.length ds))
  :: fst (detectors_run ds (snd (models_run ms fs1)))
  ++ map EvPrint footer.

Definition preload_failed_trace (e : exc) : list event :=
  map EvPrint banner
  ++ [EvImportDeepFace (Some (Exn e)); EvPrint (import_report e)].

Definition preload_trace (ms ds : list string) (fs : filesystem) : list event :=
  match import_deepface env fs with
  | (None, fs1) => preload_ok_trace ms ds fs1
  | (Some (Exn e), _) => preload_failed_trace e
  | (Some t, _) => map EvPrint banner ++ [EvImportDeepFace (Some t)]
  end.

Definition preload_fs (ms ds : list string) (fs : filesystem) : filesystem :=
  match import_deepface env fs with
  | (None, fs1) => snd (detectors_run ds (snd (models_run ms fs1)))
  | (Some _, fs1) => fs1
  end.

(** Events of lines 78-82 for the list [files]. *)
Definition listing_trace (dir : path) (files : list path) : list event :=
  EvPrint (found_line (List.length files) dir)
  :: map (fun f => EvPrint (item_line (path_name f))) (firstn 5 files)
  ++ (if Nat.ltb 5 (List.length files)
      then [EvPrint (more_line (List.length files - 5))] else []).

Definition verify_trace (fs : filesystem) : list event :=
  EvHome ::
  match home_dir env with
  | inl e => [EvPrint (verify_error_line e)]
  | inr h =>
      let dir := weights_dir_of h in
      EvExists dir ::
      match fs dir with
      | StatMissing => [EvPrint (not_found_line dir)]
      | StatError e => [EvPrint (verify_error_line e)]
      | st =>
          EvGlob dir "*" ::
          match glob_star dir st with
          | inl e => [EvPrint (verify_error_line e)]
          | inr files => listing_trace dir files
          end
      end
  end.

(** The filesystem after the library has been asked for the models
    [ms], then for the detectors' helper once per detector of [ds]. *)
Definition after_builds (ms : list string) (fs : filesystem) : filesystem :=
  fold_left (fun f m => snd (build_model env m f)) ms fs.

Definition after_probes (ds : list string) (fs : filesystem) : filesystem :=
  fold_left (fun f (_ : string) => snd (import_functions env f)) ds fs.

(** Every call of [build_model] recorded in [t], a trace that starts on
    the filesystem [fs], carries the answer the library gives on the
    filesystem the calls before it have left, and is followed at once by
    the line that reports it. *)
Fixpoint builds_answered (t : list event) (fs : filesystem) : Prop :=
  match t with
  | [] => True
  | EvBuildModel m r :: t' =>
      r = fst (build_model env m fs)
      /\ (exists t3, t' = (model_outcome m r ++ t3)%list)
      /\ builds_answered t' (snd (build_model env m fs))
  | _ :: t' => builds_answered t' fs
  end.

End Traces.

(** ** Sample collaborators *)

Definition no_error : exc -> option exc := fun _ => None.

Definition any_line : string -> option exc := fun _ => None.

(** A console that writes ASCII only. *)
Definition ascii_only (s : string) : option exc :=
  if forallb (fun c => Nat.ltb (nat_of_ascii c) 128) (list_ascii_of_string s)
  then None
  else Some (mkExc OtherException "'ascii' codec can't encode character").

(** The byte a surrogate escape stands for here; it occurs in no UTF-8
    text. *)
Definition stray : string := String (ascii_of_nat 255) EmptyString.

(** A UTF-8 console: it writes every line but those with a stray byte. *)
Definition utf8 (s : string) : option exc :=
  if existsb (fun c => Nat.eqb (nat_of_ascii c) 255) (list_ascii_of_string s)
  then Some (mkExc OtherException
               "'utf-8' codec can't encode character: surrogates not allowed")
  else None.

Definition returns : filesystem -> option throwable * filesystem :=
  fun fs => (None, fs).

(** Everything works. *)
Definition sound : environ :=
  mkEnv any_line no_error returns (fun _ => returns) returns (inr root_home).

(** Everything works but the console writes ASCII only. *)
Definition on_ascii : environ :=
  mkEnv ascii_only no_error returns (fun _ => returns) returns (inr root_home).


(** A library that leaves through [sys.exit(3)] while it builds a model. *)
Definition exiting : environ :=
  mkEnv any_line no_error returns
        (fun _ fs => (Some (SystemExit 3), fs)) returns (inr root_home).

(** A build that fails with a message the console cannot write. *)
Definition garbled : exc :=
  mkExc OtherException ("cannot open /models/" ++ stray ++ ".h5").

Definition unprintable : environ :=
  mkEnv utf8 no_error returns
        (fun _ fs => (Some (Exn garbled), fs)) returns (inr root_home).

(** A build that fails on one identifier only. *)
Definition flaky : environ :=
  mkEnv any_line no_error returns
        (fun m fs =>
           if String.eqb m "VGG-Face"
           then (Some (Exn (mkExc OtherException "download failed")), fs)
           else (None, fs))
        returns (inr root_home).



(** A helper module that fails to import the first time, leaves a marker
    in the cache folder while it does, and imports once the marker is
    there. *)
Definition marker : path := root_home // ".deepface" // "commons.ok".

Definition warming_up : environ :=
  mkEnv any_line no_error returns (fun _ => returns)
        (fun fs =>
           match fs marker with
           | StatFile => (None, fs)
           | _ => (Some (Exn (mkExc ImportError "cannot import name 'functions'")),
                   fun p => if path_eqb p marker then StatFile else fs p)
           end)
        (inr root_home).

(** A weights directory with a name the console cannot write. *)
Definition stray_entries : list dir_entry :=
  [file "a.h5"; file ("b" ++ stray ++ ".h5"); file "c.h5"].

Definition stray_fs : filesystem :=
  fs_with (weights_dir_of root_home) (StatDir (ScanEntries stray_entries)).

Definition on_utf8 : environ :=
  mkEnv utf8 no_error returns (fun _ => returns) returns (inr root_home).

End Py.

(** ** The first embedding inside the second

    An environment of the first embedding, seen as one of [Py]: a
    console that takes every line, exceptions that all have a text, a
    library that raises instances of [Exception] only and whose helper
    module answers the same way at every import without touching the
    filesystem. *)

Definition lift_answer (r : option exc) : option Py.throwable :=
  match r with
  | None => None
  | Some e => Some (Py.Exn e)
  end.

Definition lift_env (env : environ) : Py.environ :=
  Py.mkEnv (fun _ => None) (fun _ => None)
           (fun fs => (lift_answer (fst (import_deepface env fs)),
                       snd (import_deepface env fs)))
           (fun m fs => (lift_answer (fst (build_model env m fs)),
                         snd (build_model env m fs)))
           (fun fs => (lift_answer (import_functions env), fs))
           (home_dir env).

(** [sys.exit] leaves no event in [Py]: its code is in the result. *)
Definition lift_event (ev : event) : list Py.event :=
  match ev with
  | EvPrint s => [Py.EvPrint s]
  | EvImportDeepFace r => [Py.EvImportDeepFace (lift_answer r)]
  | EvBuildModel m r => [Py.EvBuildModel m (lift_answer r)]
  | EvImportFunctions r => [Py.EvImportFunctions (lift_answer r)]
  | EvHome => [Py.EvHome]
  | EvExists p => [Py.EvExists p]
  | EvGlob p pattern => [Py.EvGlob p pattern]
  | EvExit _ => []
  end.

Definition lift_trace (t : list event) : list Py.event :=
  flat_map lift_event t.

Definition lift_outcome {A} (r : outcome A) : Py.outcome A :=
  match r with
  | Ret a => Py.Ret a
  | Raise e => Py.Throw (Py.Exn e)
  | SysExit code => Py.Throw (Py.SystemExit code)
  end.

Definition lift_run {A} (r : outcome A * world) : Py.outcome A * Py.world :=
  (lift_outcome (fst r), Py.mkWorld (w_fs (snd r)) (lift_trace (w_trace (snd r)))).

(** * Verification *)

Local Open Scope list_scope.

(** ** Lists of events *)

Lemma printed_app (t u : list event) : printed (t ++ u) = printed t ++ printed u.
Proof.
  induction t as [|ev t IH]; simpl; [reflexivity|].
  destruct ev; simpl; rewrite IH; reflexivity.
Qed.

Lemma printed_prints (ls : list string) : printed (map EvPrint ls) = ls.
Proof. induction ls as [|l ls IH]; simpl; [|rewrite IH]; reflexivity. Qed.

Lemma attempted_app (t u : list event) :
  attempted (t ++ u) = attempted t ++ attempted u.
Proof.
  induction t as [|ev t IH]; simpl; [reflexivity|].
  destruct ev; simpl; rewrite IH; reflexivity.
Qed.

Lemma attempted_prints (ls : list string) : attempted (map EvPrint ls) = [].
Proof. induction ls; simpl; auto. Qed.

Lemma inspected_app (t u : list event) :
  inspected (t ++ u) = inspected t ++ inspected u.
Proof.
  induction t as [|ev t IH]; simpl; [reflexivity|].
  destruct ev; simpl; rewrite IH; reflexivity.
Qed.

Lemma inspected_prints {A} (f : A -> string) (xs : list A) :
  inspected (map (fun x => EvPrint (f x)) xs) = [].
Proof. induction xs; simpl; auto. Qed.

Lemma probes_app (t u : list event) : probes (t ++ u) = probes t ++ probes u.
Proof.
  induction t as [|ev t IH]; simpl; [reflexivity|].
  destruct ev; simpl; rewrite IH; reflexivity.
Qed.

(** ** Paths and patterns *)

Lemma path_name_truediv (p : path) (name : string) : path_name (p // name) = name.
Proof. unfold path_name, truediv; simpl. apply last_last. Qed.

Lemma fnmatch_chars_star (name : list ascii) : fnmatch_chars ["*"%char] name = true.
Proof.
  induction name as [|c name IH]; [reflexivity|].
  simpl in *. exact IH.
Qed.

(** The pattern of line 77 accepts every name, dotted or not. *)
Lemma fnmatch_star (name : string) : fnmatch "*" name = true.
Proof. unfold fnmatch. simpl. apply fnmatch_chars_star. Qed.

Lemma filter_fnmatch_star (es : list dir_entry) :
  filter (fun e => fnmatch "*" (entry_name e)) es = es.
Proof.
  induction es as [|e es IH]; simpl; [reflexivity|].
  rewrite fnmatch_star, IH. reflexivity.
Qed.


(** ** Running the preloader *)

Section Runs.

Variable env : environ.

Lemma load_model_run (m : string) (w : world) :
  load_model env m w =
  (Ret tt,
   mkWorld (snd (build_model env m (w_fs w)))
           (w_trace w ++ [EvPrint (loading_line m);
                          EvBuildModel m (fst (build_model env m (w_fs w)));
                          EvPrint (model_report m (fst (build_model env m (w_fs w))))])).
Proof.
  unfold load_model, try_except, bind, print, do_build_model, emit; simpl.
  destruct (build_model env m (w_fs w)) as [[e|] fs1]; simpl;
    rewrite <- !app_assoc; reflexivity.
Qed.

Lemma models_loop_run (ms : list string) (w : world) :
  for_each ms (load_model env) w =
  (Ret tt, mkWorld (snd (models_run env ms (w_fs w)))
                   (w_trace w ++ fst (models_run env ms (w_fs w)))).
Proof.
  revert w. induction ms as [|m ms IH]; intros w.
  - simpl. unfold ret. rewrite app_nil_r. destruct w; reflexivity.
  - simpl. unfold bind at 1. rewrite load_model_run, IH. simpl.
    destruct (build_model env m (w_fs w)) as [r fs1]; simpl.
    destruct (models_run env ms fs1) as [t fs2]; simpl.
    rewrite <- app_assoc. reflexivity.
Qed.

Lemma probe_detector_run (d : string) (w : world) :
  probe_detector env d w =
  (Ret tt, mkWorld (w_fs w) (w_trace w ++ detectors_run env [d])).
Proof.
  unfold probe_detector, try_except, bind, print, do_import_functions, emit,
    detectors_run, detector_report; simpl.
  destruct (import_functions env) as [e|]; simpl;
    rewrite <- !app_assoc; reflexivity.
Qed.

Lemma detectors_loop_run (ds : list string) (w : world) :
  for_each ds (probe_detector env) w =
  (Ret tt, mkWorld (w_fs w) (w_trace w ++ detectors_run env ds)).
Proof.
  revert w. induction ds as [|d ds IH]; intros w.
  - simpl. unfold ret. rewrite app_nil_r. destruct w; reflexivity.
  - simpl for_each. unfold bind at 1. rewrite probe_detector_run, IH. simpl.
    rewrite <- app_assoc. reflexivity.
Qed.

Lemma preload_run_ok (ms ds : list string) (w : world) (fs1 : filesystem) :
  import_deepface env (w_fs w) = (None, fs1) ->
  preload_with env ms ds w =
  (Ret true, mkWorld (snd (models_run env ms fs1))
                     (w_trace w ++ preload_ok_trace env ms ds fs1)).
Proof.
  intros Himp.
  unfold preload_with, try_except, preload_body.
  unfold bind at 1 2 3 4 5. unfold print at 1 2 3 4, do_import_deepface, emit.
  simpl. rewrite Himp. simpl.
  unfold bind at 1. rewrite models_loop_run. simpl.
  unfold bind at 1. unfold print at 1, emit. simpl.
  unfold bind at 1. rewrite detectors_loop_run. simpl.
  unfold bind, print, ret, emit, preload_ok_trace. simpl.
  repeat (rewrite <- app_assoc; simpl). reflexivity.
Qed.

Lemma preload_run_failed (ms ds : list string) (w : world)
      (e : exc) (fs1 : filesystem) :
  import_deepface env (w_fs w) = (Some e, fs1) ->
  preload_with env ms ds w =
  (Ret false, mkWorld fs1 (w_trace w ++ preload_failed_trace e)).
Proof.
  intros Himp.
  unfold preload_with, try_except, preload_body.
  unfold bind at 1 2 3 4. unfold print at 1 2 3, do_import_deepface, emit.
  simpl. rewrite Himp. simpl.
  unfold preload_handler, preload_failed_trace, import_report.
  destruct (is_ImportError e); unfold bind, print, ret, emit; simpl;
    repeat (rewrite <- app_assoc; simpl); reflexivity.
Qed.

Lemma attempted_models_run (ms : list string) (fs : filesystem) :
  attempted (fst (models_run env ms fs)) = ms.
Proof.
  revert fs. induction ms as [|m ms IH]; intros fs; simpl; [reflexivity|].
  destruct (build_model env m fs) as [r fs1].
  specialize (IH fs1). destruct (models_run env ms fs1) as [t fs2].
  simpl in *. rewrite IH. reflexivity.
Qed.

Lemma attempted_detectors_run (ds : list string) :
  attempted (detectors_run env ds) = [].
Proof. induction ds; simpl; auto. Qed.

(** In the first loop a failed call is followed at once by its report. *)
Lemma failure_reported_in_loop (ms : list string) (fs : filesystem)
      (m : string) (e : exc) :
  In (EvBuildModel m (Some e)) (fst (models_run env ms fs)) ->
  exists t1 t2,
    fst (models_run env ms fs) =
    t1 ++ EvBuildModel m (Some e) :: EvPrint (failed_line m e) :: t2.
Proof.
  revert fs. induction ms as [|m0 ms IH]; intros fs; simpl; [intros []|].
  destruct (build_model env m0 fs) as [r fs1].
  specialize (IH fs1). destruct (models_run env ms fs1) as [t fs2].
  simpl in *. intros [H|[H|[H|H]]]; try discriminate.
  - inversion H; subst. exists [EvPrint (loading_line m)], t. reflexivity.
  - destruct (IH H) as (t1 & t2 & ->).
    exists (EvPrint (loading_line m0) :: EvBuildModel m0 r
              :: EvPrint (model_report m0 r) :: t1), t2.
    reflexivity.
Qed.

End Runs.

Lemma probes_detectors_run (env : environ) (ds : list string) :
  probes (detectors_run env ds) = repeat (import_functions env) (List.length ds).
Proof. induction ds as [|d ds IH]; simpl; [|rewrite IH]; reflexivity. Qed.


Lemma printed_preload_ok_trace (env : environ) (ms ds : list string)
      (fs1 : filesystem) :
  printed (preload_ok_trace env ms ds fs1)
  = (banner ++ models_header (List.length ms)
       :: printed (fst (models_run env ms fs1))
       ++ [detectors_header (List.length ds)])
    ++ printed (detectors_run env ds) ++ footer.
Proof.
  unfold preload_ok_trace, banner, footer. simpl. rewrite printed_app. simpl.
  rewrite printed_app. simpl.
  repeat (rewrite <- app_assoc; simpl). reflexivity.
Qed.

Lemma preload_with_returns (env : environ) (ms ds : list string) (w : world) :
  exists w', preload_with env ms ds w = (Ret (import_succeeds env (w_fs w)), w').
Proof.
  unfold import_succeeds.
  destruct (import_deepface env (w_fs w)) as [[e|] fs1] eqn:Himp; simpl.
  - eexists. apply (preload_run_failed env ms ds w e fs1 Himp).
  - eexists. apply (preload_run_ok env ms ds w fs1 Himp).
Qed.

Lemma models_run_keeps_fs (env : environ) (ms : list string) (fs : filesystem) :
  (forall m fs0, snd (build_model env m fs0) = fs0) ->
  snd (models_run env ms fs) = fs.
Proof.
  intros Hlib. revert fs. induction ms as [|m ms IH]; intros fs; simpl;
    [reflexivity|].
  specialize (Hlib m fs). destruct (build_model env m fs) as [r fs1].
  simpl in Hlib. subst fs1.
  specialize (IH fs). destruct (models_run env ms fs) as [t fs2].
  exact IH.
Qed.

Lemma preload_with_fs (env : environ) (ms ds : list string) (w : world) :
  (forall fs0, snd (import_deepface env fs0) = fs0) ->
  (forall m fs0, snd (build_model env m fs0) = fs0) ->
  w_fs (snd (preload_with env ms ds w)) = w_fs w.
Proof.
  intros Himp Hbuild. specialize (Himp (w_fs w)).
  destruct (import_deepface env (w_fs w)) as [[e|] fs1] eqn:E; simpl in Himp;
    subst fs1.
  - rewrite (preload_run_failed env ms ds w e _ E). reflexivity.
  - rewrite (preload_run_ok env ms ds w _ E). simpl.
    apply models_run_keeps_fs, Hbuild.
Qed.

(** ** Running the verifier *)

Lemma print_loop_run {A} (f : A -> string) (xs : list A) (w : world) :
  for_each xs (fun x => print (f x)) w =
  (Ret tt, mkWorld (w_fs w) (w_trace w ++ map (fun x => EvPrint (f x)) xs)).
Proof.
  revert w. induction xs as [|x xs IH]; intros w.
  - simpl. unfold ret. rewrite app_nil_r. destruct w; reflexivity.
  - simpl for_each. unfold bind at 1, print at 1, emit. rewrite IH. simpl.
    rewrite <- app_assoc. reflexivity.
Qed.

Lemma path_glob_star_run (dir : path) (w : world) :
  path_glob dir "*" w =
  (match glob_star dir (w_fs w dir) with inl e => Raise e | inr fs => Ret fs end,
   emit (EvGlob dir "*") w).
Proof.
  unfold path_glob, glob_star.
  destruct (w_fs w dir) as [| e | | [es | | e]]; try reflexivity.
  rewrite filter_fnmatch_star. reflexivity.
Qed.

Lemma listing_run (dir : path) (files : list path) (w : world) :
  (print (found_line (List.length files) dir) ;;
   for_each (firstn 5 files)
            (fun weight_file => print ("  - " ++ path_name weight_file)) ;;
   if Nat.ltb 5 (List.length files)
   then print ("  ... and " ++ str_of_nat (List.length files - 5) ++ " more")
   else ret tt)%py w =
  (Ret tt, mkWorld (w_fs w) (w_trace w ++ listing_trace dir files)).
Proof.
  unfold bind at 1, print at 1, emit. unfold bind at 1.
  rewrite (print_loop_run (fun f => ("  - " ++ path_name f)%string)). simpl.
  unfold listing_trace, item_line, more_line.
  destruct (Nat.ltb 5 (List.length files)); unfold print, ret, emit; simpl;
    repeat (rewrite <- app_assoc; simpl); try rewrite app_nil_r; reflexivity.
Qed.

Lemma verify_weights_run (env : environ) (w : world) :
  verify_weights env w =
  (Ret tt, mkWorld (w_fs w) (w_trace w ++ verify_trace env (w_fs w))).
Proof.
  unfold verify_weights, try_except, verify_trace.
  unfold bind at 1, path_home.
  destruct (home_dir env) as [e | h]; simpl.
  - unfold print, emit; simpl. rewrite <- app_assoc. reflexivity.
  - unfold bind at 1, path_exists. simpl.
    destruct (w_fs w (weights_dir_of h)) as [| e | | scan] eqn:Hst; simpl.
    + unfold print, emit, not_found_line; simpl.
      repeat (rewrite <- app_assoc; simpl). reflexivity.
    + unfold print, emit; simpl.
      repeat (rewrite <- app_assoc; simpl). reflexivity.
    + unfold bind at 1. rewrite path_glob_star_run.
      change (w_fs (emit (EvExists (weights_dir_of h)) (emit EvHome w)))
        with (w_fs w).
      rewrite Hst. unfold glob_star. cbv beta iota.
      rewrite (listing_run (weights_dir_of h) []). simpl.
      repeat (rewrite <- app_assoc; simpl). reflexivity.
    + unfold bind at 1. rewrite path_glob_star_run.
      change (w_fs (emit (EvExists (weights_dir_of h)) (emit EvHome w)))
        with (w_fs w).
      rewrite Hst. unfold glob_star.
      destruct scan as [es | | e]; cbv beta iota.
      * rewrite (listing_run (weights_dir_of h)
                   (map (fun e => weights_dir_of h // entry_name e) es)).
        simpl.
        repeat (rewrite <- app_assoc; simpl). reflexivity.
      * rewrite (listing_run (weights_dir_of h) []). simpl.
        repeat (rewrite <- app_assoc; simpl). reflexivity.
      * unfold print, emit; simpl.
        repeat (rewrite <- app_assoc; simpl). reflexivity.
Qed.



(** An error while the verifier looks for the home directory becomes the
    one line of warning. *)
Lemma verify_reports_home_error (env : environ) (fs : filesystem) (e : exc) :
  home_dir env = inl e ->
  output_of (verify_weights env) fs = [verify_error_line e].
Proof.
  intros Hhome. unfold output_of, events_of. rewrite verify_weights_run.
  simpl. unfold verify_trace. rewrite Hhome. reflexivity.
Qed.

Lemma inspected_listing (dir : path) (files : list path) :
  inspected (listing_trace dir files) = [].
Proof.
  unfold listing_trace. simpl. rewrite inspected_app, inspected_prints.
  destruct (Nat.ltb 5 (List.length files)); reflexivity.
Qed.

#[local] Arguments listing_trace : simpl never.

Lemma inspected_verify_trace (env : environ) (fs : filesystem) (p : path) :
  In p (inspected (verify_trace env fs)) ->
  exists h, home_dir env = inr h /\ p = h // ".deepface" // "weights".
Proof.
  unfold verify_trace. simpl.
  destruct (home_dir env) as [e | h]; simpl; [intros []|].
  intros [<- | H]; [exists h; split; reflexivity|].
  exists h. split; [reflexivity|].
  destruct (fs (weights_dir_of h)) as [| e | | [es | | e]]; cbn in H;
    try contradiction;
    (destruct H as [<- | H]; [reflexivity|]);
    try rewrite inspected_listing in H; contradiction.
Qed.

(** ** Running the entry point *)

Lemma main_run (env : environ) (w : world) :
  exists w', main env w = (SysExit 0, w').
Proof.
  unfold main. unfold bind at 1, print at 1. unfold bind at 1.
  unfold preload_deepface_models.
  destruct (preload_with_returns env models detectors
              (emit (EvPrint (nl ++ "🚀 Running startup script..." ++ nl)) w))
    as [w1 ->].
  unfold bind at 1. rewrite verify_weights_run.
  destruct (import_succeeds env _); unfold bind, print, sys_exit;
    eexists; reflexivity.
Qed.

Lemma main_fs (env : environ) (w : world) :
  w_fs (snd (main env w)) = w_fs (snd (preload_deepface_models env w)).
Proof.
  unfold main. unfold bind at 1, print at 1. unfold bind at 1.
  unfold preload_deepface_models.
  pose proof (preload_with_returns env models detectors w) as [w1 H1].
  pose proof (preload_with_returns env models detectors
                (emit (EvPrint (nl ++ "🚀 Running startup script..." ++ nl)) w))
    as [w2 H2].
  rewrite H1, H2. simpl.
  assert (Hfs : w_fs w2 = w_fs w1).
  { unfold import_succeeds in *. simpl in H2.
    destruct (import_deepface env (w_fs w)) as [[e|] fs1] eqn:E; simpl in *.
    - rewrite (preload_run_failed env _ _ w e fs1 E) in H1.
      rewrite (preload_run_failed env _ _ (emit _ w) e fs1 E) in H2.
      inversion H1; inversion H2; reflexivity.
    - rewrite (preload_run_ok env _ _ w fs1 E) in H1.
      rewrite (preload_run_ok env _ _ (emit _ w) fs1 E) in H2.
      inversion H1; inversion H2; reflexivity. }
  unfold bind at 1. rewrite verify_weights_run.
  destruct (import_succeeds env _); unfold bind, print, sys_exit, emit; simpl;
    exact Hfs.
Qed.

(** ** The claims *)






(** C8. The verifier leaves the filesystem as it found it, and the only
    path it asks about is [.deepface/weights] under the home directory.
    The script as a whole changes the filesystem through the library
    alone: with a library that writes nothing, the filesystem after the
    run is the one before it. *)
Theorem weights_directory_is_only_read (env : environ) (w : world) :
  w_fs (snd (verify_weights env w)) = w_fs w
  /\ (forall p, In p (inspected (events_of (verify_weights env) (w_fs w))) ->
        exists h, home_dir env = inr h /\ p = h // ".deepface" // "weights")
  /\ ((forall fs, snd (import_deepface env fs) = fs) ->
      (forall m fs, snd (build_model env m fs) = fs) ->
      w_fs (snd (main env w)) = w_fs w).
Proof.
  repeat split.
  - rewrite verify_weights_run. reflexivity.
  - intros p. unfold events_of. rewrite verify_weights_run. simpl.
    apply inspected_verify_trace.
  - intros Himp Hbuild. rewrite main_fs. apply preload_with_fs; assumption.
Qed.

Lemma weights_directory_is_only_read_witness :
  w_fs (snd (main lib_ok (start seven_fs))) = seven_fs.
Proof.
  apply (proj2 (proj2 (weights_directory_is_only_read lib_ok (start seven_fs))));
    reflexivity.
Defined.




(** ** Further properties of the script *)

Lemma preload_with_run (env : environ) (ms ds : list string) (w : world) :
  preload_with env ms ds w =
  (Ret (import_succeeds env (w_fs w)),
   mkWorld (preload_fs env ms (w_fs w))
           (w_trace w ++ preload_trace env ms ds (w_fs w))).
Proof.
  unfold import_succeeds, preload_fs, preload_trace.
  destruct (import_deepface env (w_fs w)) as [[e|] fs1] eqn:Himp; simpl.
  - apply (preload_run_failed env ms ds w e fs1 Himp).
  - apply (preload_run_ok env ms ds w fs1 Himp).
Qed.

Lemma main_run_full (env : environ) (w : world) :
  main env w =
  (SysExit 0,
   mkWorld (preload_fs env models (w_fs w))
           (w_trace w
            ++ EvPrint intro_line
            :: preload_trace env models detectors (w_fs w)
            ++ verify_trace env (preload_fs env models (w_fs w))
            ++ [EvPrint (closing_line (import_succeeds env (w_fs w)));
                EvExit 0])).
Proof.
  unfold main. unfold bind at 1, print at 1. unfold bind at 1.
  unfold preload_deepface_models. rewrite preload_with_run.
  unfold bind at 1. rewrite verify_weights_run.
  cbn [w_fs w_trace emit].
  destruct (import_succeeds env (w_fs w));
    unfold bind, print, sys_exit, emit, closing_line, intro_line; cbn [w_fs w_trace];
    repeat (rewrite <- app_assoc; cbn [app]); reflexivity.
Qed.

Lemma models_run_after_builds (env : environ) (ms : list string) (fs : filesystem) :
  snd (models_run env ms fs) = after_builds env ms fs.
Proof.
  unfold after_builds. revert fs.
  induction ms as [|m ms IH]; intros fs; simpl; [reflexivity|].
  destruct (build_model env m fs) as [r fs1]. simpl.
  specialize (IH fs1). destruct (models_run env ms fs1) as [t fs2].
  exact IH.
Qed.

(** In the first loop a call that returned is followed at once by the
    line that reports the model as loaded. *)
Lemma success_reported_in_loop (env : environ) (ms : list string)
      (fs : filesystem) (m : string) :
  In (EvBuildModel m None) (fst (models_run env ms fs)) ->
  exists t1 t2,
    fst (models_run env ms fs) =
    t1 ++ EvBuildModel m None :: EvPrint (loaded_line m) :: t2.
Proof.
  revert fs. induction ms as [|m0 ms IH]; intros fs; simpl; [intros []|].
  destruct (build_model env m0 fs) as [r fs1].
  specialize (IH fs1). destruct (models_run env ms fs1) as [t fs2].
  simpl in *. intros [H|[H|[H|H]]]; try discriminate.
  - inversion H; subst. exists [EvPrint (loading_line m)], t. reflexivity.
  - destruct (IH H) as (t1 & t2 & ->).
    exists (EvPrint (loading_line m0) :: EvBuildModel m0 r
              :: EvPrint (model_report m0 r) :: t1), t2.
    reflexivity.
Qed.





(** The weights a build has stored are listed by the same run. *)
Example downloaded_weights_are_listed :
  output_of (verify_weights lib_downloading) empty_fs
  = [(nl ++ "⚠ Weights directory not found: /root/.deepface/weights")%string]
  /\ In "  - Facenet_weights.h5"%string (output_of (main lib_downloading) empty_fs).
Proof. split; [reflexivity | vm_compute; tauto]. Qed.



Lemma length_printed_listing (dir : path) (files : list path) :
  List.length (printed (listing_trace dir files))
  = 1 + Nat.min 5 (List.length files)
    + (if Nat.ltb 5 (List.length files) then 1 else 0).
Proof.
  unfold listing_trace. cbn [printed]. rewrite printed_app.
  rewrite <- (map_map (fun f => item_line (path_name f)) EvPrint), printed_prints.
  cbn [List.length]. rewrite length_app, length_map, length_firstn.
  destruct (Nat.ltb 5 (List.length files)); cbn [printed List.length]; lia.
Qed.


Lemma inspected_models_run (env : environ) (ms : list string) (fs : filesystem) :
  inspected (fst (models_run env ms fs)) = [].
Proof.
  revert fs. induction ms as [|m ms IH]; intros fs; simpl; [reflexivity|].
  destruct (build_model env m fs) as [r fs1].
  specialize (IH fs1). destruct (models_run env ms fs1) as [t fs2].
  exact IH.
Qed.

Lemma inspected_detectors_run (env : environ) (ds : list string) :
  inspected (detectors_run env ds) = [].
Proof. induction ds; simpl; auto. Qed.

Lemma attempted_listing (dir : path) (files : list path) :
  attempted (listing_trace dir files) = [].
Proof.
  unfold listing_trace. cbn [attempted]. rewrite attempted_app.
  rewrite <- (map_map (fun f => item_line (path_name f)) EvPrint), attempted_prints.
  destruct (Nat.ltb 5 (List.length files)); reflexivity.
Qed.

(** X10. The two functions keep to their own collaborator: the preloader
    never asks the filesystem about a path, and the verifier never calls
    [build_model]. *)
Theorem preloader_and_verifier_keep_apart
        (env : environ) (ms ds : list string) (fs : filesystem) :
  inspected (events_of (preload_with env ms ds) fs) = []
  /\ attempted (events_of (verify_weights env) fs) = [].
Proof.
  unfold events_of. split.
  - rewrite preload_with_run. cbn [snd w_trace w_fs start app].
    unfold preload_trace.
    destruct (import_deepface env fs) as [[e|] fs1]; [reflexivity|].
    unfold preload_ok_trace. rewrite inspected_app. cbn [inspected].
    rewrite inspected_app, inspected_models_run. cbn [inspected app].
    rewrite inspected_app, inspected_detectors_run. reflexivity.
  - rewrite verify_weights_run. cbn [snd w_trace w_fs start app].
    unfold verify_trace. cbn [attempted].
    destruct (home_dir env) as [e | h]; [reflexivity|]. cbn [attempted].
    destruct (fs (weights_dir_of h)) as [| e | | scan]; try reflexivity.
    cbn [attempted glob_star].
    destruct scan as [es | | e];
      [apply attempted_listing | apply attempted_listing | reflexivity].
Qed.

(** * Verification on any console and any library *)

Module PyFacts.

Import Py.

(** ** Lists of events *)

Lemma full_printed_app (t u : list event) : printed (t ++ u) = printed t ++ printed u.
Proof.
  induction t as [|ev t IH]; simpl; [reflexivity|].
  destruct ev; simpl; rewrite IH; reflexivity.
Qed.

Lemma full_printed_prints (ls : list string) : printed (map EvPrint ls) = ls.
Proof. induction ls as [|l ls IH]; simpl; [|rewrite IH]; reflexivity. Qed.

Lemma full_attempted_app (t u : list event) :
  attempted (t ++ u) = attempted t ++ attempted u.
Proof.
  induction t as [|ev t IH]; simpl; [reflexivity|].
  destruct ev; simpl; rewrite IH; reflexivity.
Qed.

Lemma full_attempted_prints (ls : list string) : attempted (map EvPrint ls) = [].
Proof. induction ls; simpl; auto. Qed.

(** ** Runs on tame collaborators *)

Section Tame.

Variable env : environ.
Hypothesis Hw : console_accepts env.
Hypothesis Hs : str_total env.
Hypothesis Hl : raises_errors_only env.

Lemma print_run (s : string) (w : world) :
  print env s w = (Ret tt, emit (EvPrint s) w).
Proof. unfold print. rewrite Hw. reflexivity. Qed.

Lemma bind_print {B} (s : string) (k : unit -> M B) (w : world) :
  bind (print env s) k w = k tt (emit (EvPrint s) w).
Proof. unfold bind. rewrite print_run. reflexivity. Qed.

Lemma str_exc_run (e : exc) (w : world) : str_exc env e w = (Ret (exc_msg e), w).
Proof. unfold str_exc. rewrite Hs. reflexivity. Qed.

Lemma full_load_model_run (m : string) (w : world) :
  load_model env m w =
  (Ret tt,
   mkWorld (snd (build_model env m (w_fs w)))
           (w_trace w ++ EvPrint (loading_line m)
              :: EvBuildModel m (fst (build_model env m (w_fs w)))
              :: model_outcome m (fst (build_model env m (w_fs w))))).
Proof.
  unfold load_model. rewrite bind_print.
  unfold try_except, bind at 1, do_build_model.
  destruct Hl as (_ & Hb & _). specialize (Hb m (w_fs w)).
  cbn [emit w_fs w_trace].
  destruct (build_model env m (w_fs w)) as [[[e | c |]|] fs1];
    cbn in Hb; try contradiction; cbn [of_answer fst snd model_outcome].
  - unfold bind. rewrite str_exc_run, print_run. unfold emit. cbn.
    rewrite <- !app_assoc. reflexivity.
  - rewrite print_run. unfold emit. cbn.
    rewrite <- !app_assoc. reflexivity.
Qed.

Lemma full_models_loop_run (ms : list string) (w : world) :
  for_each ms (load_model env) w =
  (Ret tt, mkWorld (snd (models_run env ms (w_fs w)))
                   (w_trace w ++ fst (models_run env ms (w_fs w)))).
Proof.
  revert w. induction ms as [|m ms IH]; intros w.
  - simpl. unfold ret. rewrite app_nil_r. destruct w; reflexivity.
  - simpl. unfold bind at 1. rewrite full_load_model_run, IH. simpl.
    destruct (build_model env m (w_fs w)) as [r fs1]; simpl.
    destruct (models_run env ms fs1) as [t fs2]; simpl.
    rewrite <- !app_assoc. reflexivity.
Qed.

Lemma full_probe_detector_run (d : string) (w : world) :
  probe_detector env d w =
  (Ret tt,
   mkWorld (snd (import_functions env (w_fs w)))
           (w_trace w ++ EvPrint (probing_line d)
              :: EvImportFunctions (fst (import_functions env (w_fs w)))
              :: probe_outcome d (fst (import_functions env (w_fs w))))).
Proof.
  unfold probe_detector. rewrite bind_print.
  unfold try_except, bind at 1, do_import_functions.
  destruct Hl as (_ & _ & Hp). specialize (Hp (w_fs w)).
  cbn [emit w_fs w_trace].
  destruct (import_functions env (w_fs w)) as [[[e | c |]|] fs1];
    cbn in Hp; try contradiction; cbn [of_answer fst snd probe_outcome].
  - rewrite print_run. unfold emit. cbn.
    rewrite <- !app_assoc. reflexivity.
  - rewrite print_run. unfold emit. cbn.
    rewrite <- !app_assoc. reflexivity.
Qed.

Lemma full_detectors_loop_run (ds : list string) (w : world) :
  for_each ds (probe_detector env) w =
  (Ret tt, mkWorld (snd (detectors_run env ds (w_fs w)))
                   (w_trace w ++ fst (detectors_run env ds (w_fs w)))).
Proof.
  revert w. induction ds as [|d ds IH]; intros w.
  - simpl. unfold ret. rewrite app_nil_r. destruct w; reflexivity.
  - simpl. unfold bind at 1. rewrite full_probe_detector_run, IH. simpl.
    destruct (import_functions env (w_fs w)) as [r fs1]; simpl.
    destruct (detectors_run env ds fs1) as [t fs2]; simpl.
    rewrite <- !app_assoc. reflexivity.
Qed.

Lemma full_preload_run_ok (ms ds : list string) (w : world) (fs1 : filesystem) :
  import_deepface env (w_fs w) = (None, fs1) ->
  preload_with env ms ds w =
  (Ret true,
   mkWorld (snd (detectors_run env ds (snd (models_run env ms fs1))))
           (w_trace w ++ preload_ok_trace env ms ds fs1)).
Proof.
  intros Himp.
  unfold preload_with, try_except, preload_body.
  rewrite !bind_print.
  unfold bind at 1, do_import_deepface. cbn [emit w_fs w_trace].
  rewrite Himp. cbn [of_answer].
  rewrite bind_print.
  unfold bind at 1. rewrite full_models_loop_run.
  rewrite bind_print.
  unfold bind at 1. rewrite full_detectors_loop_run.
  rewrite !bind_print. unfold ret, emit, preload_ok_trace, banner, footer.
  cbn [w_fs w_trace map].
  repeat (rewrite <- app_assoc; cbn [app]). reflexivity.
Qed.

Lemma full_preload_run_failed (ms ds : list string) (w : world)
      (e : exc) (fs1 : filesystem) :
  import_deepface env (w_fs w) = (Some (Exn e), fs1) ->
  preload_with env ms ds w =
  (Ret false, mkWorld fs1 (w_trace w ++ preload_failed_trace e)).
Proof.
  intros Himp.
  unfold preload_with, try_except, preload_body.
  rewrite !bind_print.
  unfold bind at 1, do_import_deepface. cbn [emit w_fs w_trace].
  rewrite Himp. cbn [of_answer].
  unfold preload_handler, preload_failed_trace, import_report, banner.
  destruct (is_ImportError e).
  - rewrite bind_print. unfold ret, emit. cbn [w_fs w_trace map].
    repeat (rewrite <- app_assoc; cbn [app]). reflexivity.
  - unfold bind at 1. rewrite str_exc_run. rewrite bind_print.
    unfold ret, emit. cbn [w_fs w_trace map].
    repeat (rewrite <- app_assoc; cbn [app]). reflexivity.
Qed.

Lemma full_preload_with_run (ms ds : list string) (w : world) :
  preload_with env ms ds w =
  (Ret (import_succeeds env (w_fs w)),
   mkWorld (preload_fs env ms ds (w_fs w))
           (w_trace w ++ preload_trace env ms ds (w_fs w))).
Proof.
  unfold import_succeeds, preload_fs, preload_trace.
  destruct Hl as (Hi & _ & _). specialize (Hi (w_fs w)).
  destruct (import_deepface env (w_fs w)) as [[[e | c |]|] fs1] eqn:Himp;
    cbn in Hi; try contradiction; cbn [fst].
  - apply (full_preload_run_failed ms ds w e fs1 Himp).
  - apply (full_preload_run_ok ms ds w fs1 Himp).
Qed.

Lemma full_print_loop_run {A} (f : A -> string) (xs : list A) (w : world) :
  for_each xs (fun x => print env (f x)) w =
  (Ret tt, mkWorld (w_fs w) (w_trace w ++ map (fun x => EvPrint (f x)) xs)).
Proof.
  revert w. induction xs as [|x xs IH]; intros w.
  - simpl. unfold ret. rewrite app_nil_r. destruct w; reflexivity.
  - simpl for_each. rewrite bind_print, IH. unfold emit. cbn [w_fs w_trace map].
    rewrite <- app_assoc. reflexivity.
Qed.

Lemma full_path_glob_star_run (dir : path) (w : world) :
  path_glob dir "*" w =
  (match glob_star dir (w_fs w dir) with
   | inl e => Throw (Exn e)
   | inr fs => Ret fs
   end,
   emit (EvGlob dir "*") w).
Proof.
  unfold path_glob, glob_star.
  destruct (w_fs w dir) as [| e | | [es | | e]]; try reflexivity.
  rewrite filter_fnmatch_star. reflexivity.
Qed.

Lemma full_listing_run (dir : path) (files : list path) (w : world) :
  (print env (found_line (List.length files) dir) ;;
   for_each (firstn 5 files)
            (fun weight_file => print env ("  - " ++ path_name weight_file)) ;;
   if Nat.ltb 5 (List.length files)
   then print env ("  ... and " ++ str_of_nat (List.length files - 5) ++ " more")
   else ret tt)%full w =
  (Ret tt, mkWorld (w_fs w) (w_trace w ++ listing_trace dir files)).
Proof.
  rewrite bind_print. unfold bind at 1.
  rewrite (full_print_loop_run (fun f => ("  - " ++ path_name f)%string)).
  unfold listing_trace, item_line, more_line.
  destruct (Nat.ltb 5 (List.length files));
    [rewrite print_run | unfold ret]; unfold emit; cbn [w_fs w_trace];
    repeat (rewrite <- app_assoc; cbn [app]); try rewrite app_nil_r; reflexivity.
Qed.

Lemma full_verify_weights_run (w : world) :
  verify_weights env w =
  (Ret tt, mkWorld (w_fs w) (w_trace w ++ verify_trace env (w_fs w))).
Proof.
  unfold verify_weights, try_except, verify_trace.
  unfold bind at 1, path_home.
  destruct (home_dir env) as [e | h].
  - unfold bind. rewrite str_exc_run, print_run. unfold emit.
    cbn [w_fs w_trace]. rewrite <- app_assoc. reflexivity.
  - unfold bind at 1, path_exists. cbn [emit w_fs w_trace].
    destruct (w_fs w (weights_dir_of h)) as [| e | | scan] eqn:Hst.
    + rewrite print_run. unfold emit, not_found_line. cbn [w_fs w_trace].
      repeat (rewrite <- app_assoc; cbn [app]). reflexivity.
    + unfold bind. rewrite str_exc_run, print_run. unfold emit.
      cbn [w_fs w_trace].
      repeat (rewrite <- app_assoc; cbn [app]). reflexivity.
    + unfold bind at 1. rewrite full_path_glob_star_run.
      change (w_fs (emit (EvExists (weights_dir_of h)) (emit EvHome w)))
        with (w_fs w).
      rewrite Hst. unfold glob_star. cbv beta iota.
      rewrite (full_listing_run (weights_dir_of h) []). unfold emit.
      cbn [w_fs w_trace].
      repeat (rewrite <- app_assoc; cbn [app]). reflexivity.
    + unfold bind at 1. rewrite full_path_glob_star_run.
      change (w_fs (emit (EvExists (weights_dir_of h)) (emit EvHome w)))
        with (w_fs w).
      rewrite Hst. unfold glob_star.
      destruct scan as [es | | e]; cbv beta iota.
      * rewrite (full_listing_run (weights_dir_of h)
                   (map (fun e => weights_dir_of h // entry_name e) es)).
        unfold emit. cbn [w_fs w_trace].
        repeat (rewrite <- app_assoc; cbn [app]). reflexivity.
      * rewrite (full_listing_run (weights_dir_of h) []). unfold emit.
        cbn [w_fs w_trace].
        repeat (rewrite <- app_assoc; cbn [app]). reflexivity.
      * unfold bind. rewrite str_exc_run, print_run. unfold emit.
        cbn [w_fs w_trace].
        repeat (rewrite <- app_assoc; cbn [app]). reflexivity.
Qed.

Lemma full_main_run (w : world) :
  main env w =
  (Throw (SystemExit 0),
   mkWorld (preload_fs env models detectors (w_fs w))
           (w_trace w
            ++ EvPrint intro_line
            :: preload_trace env models detectors (w_fs w)
            ++ verify_trace env (preload_fs env models detectors (w_fs w))
            ++ [EvPrint (closing_line (import_succeeds env (w_fs w)))])).
Proof.
  unfold main. rewrite bind_print. unfold bind at 1.
  unfold preload_deepface_models. rewrite full_preload_with_run.
  unfold bind at 1. rewrite full_verify_weights_run.
  cbn [w_fs w_trace emit].
  destruct (import_succeeds env (w_fs w));
    rewrite bind_print; unfold sys_exit, emit, closing_line, intro_line;
    cbn [w_fs w_trace];
    repeat (rewrite <- app_assoc; cbn [app]); reflexivity.
Qed.

Lemma verify_listing_run (w : world) (h : path) (es : list dir_entry) :
  home_dir env = inr h ->
  w_fs w (weights_dir_of h) = StatDir (ScanEntries es) ->
  verify_weights env w =
  (Ret tt,
   mkWorld (w_fs w)
           (w_trace w ++ EvHome :: EvExists (weights_dir_of h)
              :: EvGlob (weights_dir_of h) "*"
              :: listing_trace (weights_dir_of h)
                   (map (fun e => weights_dir_of h // entry_name e) es))).
Proof.
  intros Hhome Hst.
  unfold verify_weights, try_except.
  unfold bind at 1, path_home. rewrite Hhome.
  unfold bind at 1, path_exists. cbn [emit w_fs w_trace]. rewrite Hst.
  unfold bind at 1. rewrite full_path_glob_star_run.
  change (w_fs (emit (EvExists (weights_dir_of h)) (emit EvHome w)))
    with (w_fs w).
  rewrite Hst. unfold glob_star. cbv beta iota.
  rewrite (full_listing_run (weights_dir_of h)
             (map (fun e => weights_dir_of h // entry_name e) es)).
  unfold emit. cbn [w_fs w_trace].
  repeat (rewrite <- app_assoc; cbn [app]). reflexivity.
Qed.


End Tame.

(** ** Calls of the library in a trace *)

Lemma full_attempted_models_run (env : environ) (ms : list string) (fs : filesystem) :
  attempted (fst (models_run env ms fs)) = ms.
Proof.
  revert fs. induction ms as [|m ms IH]; intros fs; simpl; [reflexivity|].
  destruct (build_model env m fs) as [r fs1].
  specialize (IH fs1). destruct (models_run env ms fs1) as [t fs2].
  simpl in *. rewrite full_attempted_app, IH.
  destruct r as [[e | c |]|]; reflexivity.
Qed.

Lemma full_attempted_detectors_run (env : environ) (ds : list string) (fs : filesystem) :
  attempted (fst (detectors_run env ds fs)) = [].
Proof.
  revert fs. induction ds as [|d ds IH]; intros fs; simpl; [reflexivity|].
  destruct (import_functions env fs) as [r fs1].
  specialize (IH fs1). destruct (detectors_run env ds fs1) as [t fs2].
  simpl in *. rewrite full_attempted_app, IH.
  destruct r as [[e | c |]|]; reflexivity.
Qed.

Lemma attempted_preload_ok_trace (env : environ) (ms ds : list string)
      (fs1 : filesystem) :
  attempted (preload_ok_trace env ms ds fs1) = ms.
Proof.
  unfold preload_ok_trace, banner, footer. simpl.
  rewrite full_attempted_app, full_attempted_models_run. simpl.
  rewrite full_attempted_app, full_attempted_detectors_run. simpl.
  apply app_nil_r.
Qed.

Lemma builds_answered_none (env : environ) (t : list event) (fs : filesystem) :
  attempted t = [] -> builds_answered env t fs.
Proof.
  induction t as [|ev t IH]; simpl; [trivial|].
  destruct ev; simpl; try exact IH. discriminate.
Qed.

Lemma builds_answered_models_run (env : environ) (ms : list string)
      (fs : filesystem) (post : list event) :
  attempted post = [] ->
  builds_answered env (fst (models_run env ms fs) ++ post) fs.
Proof.
  intros Hpost. revert fs. induction ms as [|m ms IH]; intros fs; simpl.
  - apply builds_answered_none, Hpost.
  - specialize (IH (snd (build_model env m fs))).
    destruct (build_model env m fs) as [r fs1] eqn:E. simpl in IH.
    destruct (models_run env ms fs1) as [t fs2]. simpl in *.
    rewrite E. simpl. repeat split.
    + eexists. rewrite <- app_assoc. reflexivity.
    + rewrite <- app_assoc. destruct r as [[e | c |]|]; simpl; exact IH.
Qed.

Lemma builds_answered_preload (env : environ) (ms ds : list string)
      (fs1 : filesystem) :
  builds_answered env (preload_ok_trace env ms ds fs1) fs1.
Proof.
  unfold preload_ok_trace, banner. simpl.
  apply builds_answered_models_run. unfold footer. simpl.
  rewrite full_attempted_app, full_attempted_detectors_run.
  reflexivity.
Qed.

(** What [builds_answered] says of a call picked out of the trace. *)
Lemma builds_answered_at (env : environ) (t1 t2 : list event)
      (m : string) (r : option throwable) (fs : filesystem) :
  builds_answered env (t1 ++ EvBuildModel m r :: t2) fs ->
  r = fst (build_model env m (after_builds env (attempted t1) fs))
  /\ exists t3, t2 = model_outcome m r ++ t3.
Proof.
  revert fs. induction t1 as [|ev t1 IH]; intros fs; simpl.
  - intros (Hr & Hnext & _). split; assumption.
  - destruct ev; simpl; try apply IH.
    intros (_ & _ & H). apply IH, H.
Qed.

(** ** The claims that need a console and a library that behave *)

Ltac tame_by_computation :=
  repeat split; intros; cbn;
  repeat match goal with
         | |- context [String.eqb ?a ?b] => destruct (String.eqb a b)
         | |- context [match ?x with _ => _ end] => destruct x
         end;
  cbn; try reflexivity; exact I.

(** C1, as worded, fails: on a console that writes ASCII only the first
    [print] of the entry point raises and the process ends with status 1,
    and when the library leaves through [sys.exit(3)] while it builds a
    model the process ends with status 3. *)
Lemma exit_status_is_not_always_zero :
  fst (run_script on_ascii (start empty_fs)) = 1
  /\ fst (run_script exiting (start empty_fs)) = 3.
Proof. split; reflexivity. Qed.

(** C1, amended. When standard output takes every line, every exception
    has a text and the library raises instances of [Exception] only, the
    entry point ends in [sys.exit(0)] and the exit status of the process
    is 0, after a preload that succeeded as after one that returned
    false. *)
Theorem main_exits_zero_on_tame_collaborators (env : environ) (w : world) :
  tame env ->
  fst (main env w) = Throw (SystemExit 0) /\ fst (run_script env w) = 0.
Proof.
  intros (Hw & Hs & Hl). unfold run_script.
  rewrite (full_main_run env Hw Hs Hl w). split; reflexivity.
Qed.

Lemma main_exits_zero_on_tame_collaborators_witness :
  fst (run_script flaky (start seven_fs)) = 0.
Proof.
  apply (main_exits_zero_on_tame_collaborators flaky (start seven_fs)).
  tame_by_computation.
Defined.

(** C2, as worded, fails: the import goes through, the one model fails
    with a message the console cannot write, the [print] of the inner
    handler raises, and the function returns [false]. *)
Lemma unwritable_failure_turns_the_flag :
  import_succeeds unprintable empty_fs = true
  /\ fst (preload_deepface_models unprintable (start empty_fs)) = Ret false.
Proof. split; reflexivity. Qed.

(** C2, amended. When standard output takes every line, every exception
    has a text and the library raises instances of [Exception] only, the
    flag returned by [preload_deepface_models] is [true] exactly when the
    import of DeepFace went through, whatever the calls of [build_model]
    answer; the same holds for any two lists in place of the literals. *)
Theorem preload_flag_is_import_success_on_tame_collaborators
        (env : environ) (w : world) :
  tame env ->
  fst (preload_deepface_models env w) = Ret (import_succeeds env (w_fs w))
  /\ forall ms ds,
       fst (preload_with env ms ds w) = Ret (import_succeeds env (w_fs w)).
Proof.
  intros (Hw & Hs & Hl). unfold preload_deepface_models.
  split; [|intros ms ds]; rewrite (full_preload_with_run env Hw Hs Hl); reflexivity.
Qed.

Lemma preload_flag_is_import_success_on_tame_collaborators_witness :
  fst (preload_with flaky ["Facenet"; "VGG-Face"; "OpenFace"] ["opencv"]
                    (start empty_fs)) = Ret true.
Proof.
  apply (preload_flag_is_import_success_on_tame_collaborators flaky (start empty_fs)).
  tame_by_computation.
Defined.

(** C3, as worded, fails: the load of the one model raises with a message
    the console cannot write; the call is made, yet no line with the
    identifier and the message follows it, the run goes to the outer
    handler instead.  With a second model after it in the list, that
    second model is never attempted. *)
Lemma unwritable_failure_is_not_logged :
  events_of (preload_deepface_models unprintable) empty_fs
  = map EvPrint banner
    ++ [EvImportDeepFace None; EvPrint (models_header 1);
        EvPrint (loading_line "Facenet");
        EvBuildModel "Facenet" (Some (Exn garbled));
        EvPrint ("✗ Error during model pre-loading: " ++
                 "'utf-8' codec can't encode character: surrogates not allowed")]
  /\ attempted (events_of (preload_with unprintable ["Facenet"; "VGG-Face"]
                                        ["opencv"]) empty_fs)
     = ["Facenet"%string].
Proof. split; reflexivity. Qed.

(** C3, amended. When standard output takes every line, every exception
    has a text, the library raises instances of [Exception] only and the
    import went through: the identifiers handed to [build_model] are the
    whole list in its order, whichever of the calls fail; every call
    recorded carries the answer of the library on the filesystem the
    calls before it left; every call that raised is followed at once by
    the line with its identifier and the text of its exception; and the
    run completes with [true]. *)
Theorem failed_model_is_logged_and_loop_goes_on
        (env : environ) (ms ds : list string) (fs fs1 : filesystem) :
  tame env ->
  import_deepface env fs = (None, fs1) ->
  let t := events_of (preload_with env ms ds) fs in
  attempted t = ms
  /\ (forall t1 t2 m r,
        t = t1 ++ EvBuildModel m r :: t2 ->
        r = fst (build_model env m (after_builds env (attempted t1) fs1)))
  /\ (forall t1 t2 m e,
        t = t1 ++ EvBuildModel m (Some (Exn e)) :: t2 ->
        exists t3, t2 = EvPrint (failed_line m e) :: t3)
  /\ fst (preload_with env ms ds (start fs)) = Ret true.
Proof.
  intros (Hw & Hs & Hl) Himp t. subst t. unfold events_of.
  rewrite (full_preload_run_ok env Hw Hs Hl ms ds (start fs) fs1 Himp).
  cbn [fst snd w_trace start app].
  pose proof (builds_answered_preload env ms ds fs1) as Hall.
  repeat split.
  - apply attempted_preload_ok_trace.
  - intros t1 t2 m r Heq. rewrite Heq in Hall.
    apply (builds_answered_at env t1 t2 m r fs1 Hall).
  - intros t1 t2 m e Heq. rewrite Heq in Hall.
    apply (builds_answered_at env t1 t2 m _ fs1 Hall).
Qed.

Lemma failed_model_is_logged_and_loop_goes_on_witness :
  let t := events_of (preload_with flaky ["Facenet"; "VGG-Face"; "OpenFace"]
                                   ["opencv"]) empty_fs in
  attempted t = ["Facenet"; "VGG-Face"; "OpenFace"]%string
  /\ (forall t1 t2 m r,
        t = t1 ++ EvBuildModel m r :: t2 ->
        r = fst (build_model flaky m
                   (after_builds flaky (attempted t1) empty_fs)))
  /\ (forall t1 t2 m e,
        t = t1 ++ EvBuildModel m (Some (Exn e)) :: t2 ->
        exists t3, t2 = EvPrint (failed_line m e) :: t3)
  /\ fst (preload_with flaky ["Facenet"; "VGG-Face"; "OpenFace"] ["opencv"]
                       (start empty_fs)) = Ret true.
Proof.
  apply (failed_model_is_logged_and_loop_goes_on
           flaky ["Facenet"; "VGG-Face"; "OpenFace"]%string
           ["opencv"%string] empty_fs empty_fs);
    [tame_by_computation | reflexivity].
Defined.

(** The run of the witness, line by line: the second of three models
    fails, the third is loaded all the same. *)
Example flaky_run_output :
  output_of (preload_with flaky ["Facenet"; "VGG-Face"; "OpenFace"]
                          ["opencv"]) empty_fs
  = [bar; "Starting DeepFace model pre-loading..."; bar;
     nl ++ "Pre-loading 3 recognition model(s)...";
     nl ++ "→ Loading Facenet..."; "✓ Facenet loaded successfully";
     nl ++ "→ Loading VGG-Face..."; "✗ Failed to load VGG-Face: download failed";
     nl ++ "→ Loading OpenFace..."; "✓ OpenFace loaded successfully";
     nl ++ nl ++ "Pre-loading 1 detector(s)...";
     nl ++ "→ Loading opencv detector..."; "✓ opencv detector available";
     nl ++ bar; "✓ DeepFace model pre-loading complete!"; bar]%string.
Proof. reflexivity. Qed.

(** C4, as worded, fails: of three entries the second has a name the
    console cannot write; the verifier prints the count and the first
    name, then the warning, and neither the second nor the third name. *)
Lemma unwritable_name_cuts_the_listing :
  output_of (verify_weights on_utf8) stray_fs
  = [(nl ++ "✓ Found 3 weight file(s) in /root/.deepface/weights");
     "  - a.h5";
     "⚠ Could not verify weights: " ++
     "'utf-8' codec can't encode character: surrogates not allowed"]%string.
Proof. reflexivity. Qed.

(** C4, amended. On a weights directory with the [n] entries [es], files
    or directories, and a standard output that takes every line, the
    verifier prints the line with the count [n], then the names of the
    first five entries at most, in order, then the line "... and [n - 5]
    more" when [n] exceeds 5 and nothing when it does not. *)
Theorem verify_prints_count_and_first_five
        (env : environ) (fs : filesystem) (h : path) (es : list dir_entry) :
  console_accepts env ->
  home_dir env = inr h ->
  fs (weights_dir_of h) = StatDir (ScanEntries es) ->
  output_of (verify_weights env) fs =
  found_line (List.length es) (weights_dir_of h)
  :: map (fun e => item_line (entry_name e)) (firstn 5 es)
  ++ (if Nat.ltb 5 (List.length es)
      then [more_line (List.length es - 5)] else []).
Proof.
  intros Hw Hhome Hst. unfold output_of, events_of.
  rewrite (verify_listing_run env Hw (start fs) h es Hhome Hst).
  cbn [snd w_trace start app].
  change (printed (EvHome :: EvExists (weights_dir_of h)
                     :: EvGlob (weights_dir_of h) "*"
                     :: listing_trace (weights_dir_of h)
                          (map (fun e => weights_dir_of h // entry_name e) es)))
    with (printed (listing_trace (weights_dir_of h)
                     (map (fun e => weights_dir_of h // entry_name e) es))).
  unfold listing_trace.
  change (printed (EvPrint ?a :: ?x)) with (a :: printed x).
  rewrite length_map. f_equal.
  rewrite full_printed_app.
  rewrite <- (map_map (fun f => item_line (path_name f)) EvPrint), full_printed_prints.
  f_equal.
  - rewrite firstn_map, map_map. apply map_ext.
    intros e. rewrite path_name_truediv. reflexivity.
  - destruct (Nat.ltb 5 (List.length es)); reflexivity.
Qed.

Lemma verify_prints_count_and_first_five_witness :
  output_of (verify_weights sound) seven_fs =
  [(nl ++ "✓ Found 7 weight file(s) in /root/.deepface/weights");
   "  - a.h5"; "  - b.h5"; "  - c.h5"; "  - d.h5"; "  - e.h5";
   "  ... and 2 more"]%string.
Proof.
  apply (verify_prints_count_and_first_five sound seven_fs root_home seven_files);
    [intros s | |]; reflexivity.
Defined.








(** With two detectors and a helper module that imports at the second
    attempt only, the first is reported as loading on first use and the
    second as available: what holds for the one detector of the program
    does not carry over to a longer list. *)
Example second_probe_can_differ :
  output_of (for_each ["opencv"; "ssd"] (probe_detector warming_up)) empty_fs
  = [probing_line "opencv"; deferred_line "opencv";
     probing_line "ssd"; available_line "ssd"].
Proof. reflexivity. Qed.

(** ** Further properties on any console and any library *)

Lemma full_models_run_after_builds (env : environ) (ms : list string) (fs : filesystem) :
  snd (models_run env ms fs) = after_builds env ms fs.
Proof.
  unfold after_builds. revert fs.
  induction ms as [|m ms IH]; intros fs; simpl; [reflexivity|].
  destruct (build_model env m fs) as [r fs1]. simpl.
  specialize (IH fs1). destruct (models_run env ms fs1) as [t fs2].
  exact IH.
Qed.

Lemma detectors_run_after_probes (env : environ) (ds : list string)
      (fs : filesystem) :
  snd (detectors_run env ds fs) = after_probes env ds fs.
Proof.
  unfold after_probes. revert fs.
  induction ds as [|d ds IH]; intros fs; simpl; [reflexivity|].
  destruct (import_functions env fs) as [r fs1]. simpl.
  specialize (IH fs1). destruct (detectors_run env ds fs1) as [t fs2].
  exact IH.
Qed.

(** X3. When standard output takes every line, every exception has a
    text and the library raises instances of [Exception] only, the last
    line the entry point prints is the line of success when the import
    of DeepFace went through and the line of warnings when it did not,
    however many models failed to load. *)
Theorem closing_line_follows_the_import (env : environ) (fs : filesystem) :
  tame env ->
  last (output_of (main env) fs) ""%string
  = if import_succeeds env fs then success_line else warnings_line.
Proof.
  intros (Hw & Hs & Hl). unfold output_of, events_of.
  rewrite (full_main_run env Hw Hs Hl). cbn [snd w_trace w_fs start app].
  rewrite app_comm_cons, app_assoc, full_printed_app.
  change (printed [EvPrint (closing_line (import_succeeds env fs))])
    with [closing_line (import_succeeds env fs)].
  rewrite last_last. reflexivity.
Qed.

Lemma closing_line_follows_the_import_witness :
  last (output_of (main flaky) empty_fs) ""%string = success_line.
Proof.
  apply (closing_line_follows_the_import flaky empty_fs).
  tame_by_computation.
Defined.

(** X7. When standard output takes every line, every exception has a
    text, the library raises instances of [Exception] only and the
    import went through, every call of [build_model] that returned,
    wherever it stands in the run, is followed at once by the line that
    reports its model as loaded. *)
Theorem loaded_model_is_reported
        (env : environ) (ms ds : list string) (fs fs1 : filesystem) :
  tame env ->
  import_deepface env fs = (None, fs1) ->
  forall t1 t2 m,
    events_of (preload_with env ms ds) fs = t1 ++ EvBuildModel m None :: t2 ->
    exists t3, t2 = EvPrint (loaded_line m) :: t3.
Proof.
  intros (Hw & Hs & Hl) Himp t1 t2 m. unfold events_of.
  rewrite (full_preload_run_ok env Hw Hs Hl ms ds (start fs) fs1 Himp).
  cbn [snd w_trace start app]. intros Heq.
  pose proof (builds_answered_preload env ms ds fs1) as Hall.
  rewrite Heq in Hall.
  apply (builds_answered_at env t1 t2 m None fs1 Hall).
Qed.

Lemma loaded_model_is_reported_witness :
  exists t3,
    skipn 13 (events_of (preload_with flaky ["Facenet"; "VGG-Face"; "Facenet"]
                                      ["opencv"]) empty_fs)
    = EvPrint "✓ Facenet loaded successfully" :: t3.
Proof.
  refine (loaded_model_is_reported flaky ["Facenet"; "VGG-Face"; "Facenet"]%string
            ["opencv"%string] empty_fs empty_fs _ eq_refl
            (firstn 12 (events_of (preload_with flaky
                          ["Facenet"; "VGG-Face"; "Facenet"] ["opencv"])
                          empty_fs))
            (skipn 13 (events_of (preload_with flaky
                         ["Facenet"; "VGG-Face"; "Facenet"] ["opencv"])
                         empty_fs))
            "Facenet"%string eq_refl).
  tame_by_computation.
Defined.

(** X8. When standard output takes every line, every exception has a
    text and the library raises instances of [Exception] only, the
    filesystem after the preloader is the one the library has made: what
    the import left when it failed, and otherwise the result of the
    calls of [build_model] for the models in their order, then of one
    import of the helper module per detector, each on what the call
    before it left, failed calls included.  The script adds nothing. *)
Theorem preload_leaves_the_library_filesystem
        (env : environ) (ms ds : list string) (fs : filesystem) :
  tame env ->
  w_fs (snd (preload_with env ms ds (start fs)))
  = if import_succeeds env fs
    then after_probes env ds
           (after_builds env ms (snd (import_deepface env fs)))
    else snd (import_deepface env fs).
Proof.
  intros (Hw & Hs & Hl). rewrite (full_preload_with_run env Hw Hs Hl).
  cbn [snd w_fs start]. unfold preload_fs, import_succeeds.
  destruct (import_deepface env fs) as [[t|] fs1]; cbn [fst snd];
    [reflexivity|].
  rewrite detectors_run_after_probes, full_models_run_after_builds. reflexivity.
Qed.

Lemma preload_leaves_the_library_filesystem_witness :
  w_fs (snd (preload_with warming_up ["Facenet"] ["opencv"; "ssd"]
                          (start empty_fs))) marker
  = StatFile.
Proof.
  rewrite (preload_leaves_the_library_filesystem warming_up ["Facenet"]%string
             ["opencv"; "ssd"]%string empty_fs);
    [reflexivity | tame_by_computation].
Defined.

(** ** How much a computation can print *)

Lemma ret_within {A} (x : A) (a b : nat) : prints_within (ret x) a b.
Proof. intros w. simpl. lia. Qed.

Lemma print_within (env : environ) (s : string) (a b : nat) :
  1 <= a -> prints_within (print env s) a b.
Proof.
  intros Ha w. unfold print. destruct (write env s); simpl; [lia|].
  rewrite full_printed_app, length_app. simpl. lia.
Qed.

Lemma bind_within {A B} (m : M A) (k : A -> M B) (a b c d n n' : nat) :
  prints_within m a b ->
  (forall x, prints_within (k x) c d) ->
  a + c <= n -> b <= n' -> a + d <= n' ->
  prints_within (bind m k) n n'.
Proof.
  intros Hm Hk H1 H2 H3 w. specialize (Hm w). unfold bind.
  destruct (m w) as [[x | t] w1]; simpl in *; [|lia].
  specialize (Hk x w1). destruct (k x w1) as [[y | t] w2]; simpl in *; lia.
Qed.

Lemma try_within {A} (body : M A) (handler : exc -> M A) (a b c d n n' : nat) :
  prints_within body a b ->
  (forall e, prints_within (handler e) c d) ->
  a <= n -> b + c <= n -> b <= n' -> b + d <= n' ->
  prints_within (try_except body handler) n n'.
Proof.
  intros Hb Hh H1 H2 H3 H4 w. specialize (Hb w). unfold try_except.
  destruct (body w) as [[x | [e | c0 |]] w1]; simpl in *; try lia.
  specialize (Hh e w1). destruct (handler e w1) as [[y | t] w2]; simpl in *; lia.
Qed.

Lemma print_loop_within {A} (env : environ) (f : A -> string) (xs : list A) :
  prints_within (for_each xs (fun x => print env (f x)))
                (List.length xs) (List.length xs).
Proof.
  induction xs as [|x xs IH]; simpl for_each.
  - apply ret_within.
  - apply (bind_within _ _ 1 0 (List.length xs) (List.length xs));
      simpl; try lia; [apply print_within; lia | intros _; exact IH].
Qed.

Lemma quiet_within {A} (m : M A) :
  (forall w, printed (w_trace (snd (m w))) = printed (w_trace w)) ->
  prints_within m 0 0.
Proof. intros H w. rewrite H. destruct (fst (m w)); lia. Qed.

Lemma path_home_within (env : environ) : prints_within (path_home env) 0 0.
Proof.
  apply quiet_within. intros w. unfold path_home.
  destruct (home_dir env); simpl; rewrite full_printed_app; simpl; apply app_nil_r.
Qed.

Lemma path_exists_within (p : path) : prints_within (path_exists p) 0 0.
Proof.
  apply quiet_within. intros w. unfold path_exists.
  destruct (w_fs w p); simpl; rewrite full_printed_app; simpl; apply app_nil_r.
Qed.

Lemma path_glob_within (p : path) (pattern : string) :
  prints_within (path_glob p pattern) 0 0.
Proof.
  apply quiet_within. intros w. unfold path_glob.
  destruct (w_fs w p) as [| e | | [es | | e]]; simpl;
    rewrite full_printed_app; simpl; apply app_nil_r.
Qed.

Lemma str_exc_within (env : environ) (e : exc) : prints_within (str_exc env e) 0 0.
Proof.
  apply quiet_within. intros w. unfold str_exc.
  destruct (str_raises env e); reflexivity.
Qed.

Lemma verify_weights_within (env : environ) :
  prints_within (verify_weights env) 7 6.
Proof.
  unfold verify_weights.
  apply (try_within _ _ 7 6 1 0); try lia.
  - apply (bind_within _ _ 0 0 7 6); try lia; [apply path_home_within|].
    intros h.
    apply (bind_within _ _ 0 0 7 6); try lia; [apply path_exists_within|].
    intros [|]; [|apply print_within; lia].
    apply (bind_within _ _ 0 0 7 6); try lia; [apply path_glob_within|].
    intros files.
    apply (bind_within _ _ 1 0 6 5); try lia; [apply print_within; lia|].
    intros _.
    apply (bind_within _ _ (List.length (firstn 5 files))
                       (List.length (firstn 5 files)) 1 0);
      try (rewrite length_firstn; lia); [apply print_loop_within|].
    intros _. destruct (Nat.ltb 5 (List.length files));
      [apply print_within; lia | apply ret_within].
  - intros e.
    apply (bind_within _ _ 0 0 1 0); try lia; [apply str_exc_within|].
    intros msg. apply print_within; lia.
Qed.

Lemma full_length_printed_listing (dir : path) (files : list path) :
  1 <= List.length (printed (listing_trace dir files)).
Proof. unfold listing_trace. simpl. lia. Qed.

(** X6. Whatever the console, the library and the filesystem do, and
    however many entries the weights directory holds, at most seven
    calls of [print] of the verifier get a line through to standard
    output; on a console that takes every line, and with exceptions
    that have a text, at least one does. *)
Theorem verify_prints_at_most_seven_times (env : environ) (fs : filesystem) :
  List.length (output_of (verify_weights env) fs) <= 7
  /\ (console_accepts env -> str_total env ->
      1 <= List.length (output_of (verify_weights env) fs)).
Proof.
  unfold output_of, events_of. split.
  - pose proof (verify_weights_within env (start fs)) as H. simpl in H.
    destruct (fst (verify_weights env (start fs))); lia.
  - intros Hw Hs. rewrite (full_verify_weights_run env Hw Hs).
    cbn [snd w_trace w_fs start app]. unfold verify_trace. cbn [printed].
    destruct (home_dir env) as [e | h]; [simpl; lia|]. cbn [printed].
    destruct (fs (weights_dir_of h)) as [| e | | scan]; try (simpl; lia).
    cbn [printed glob_star].
    destruct scan as [es | | e];
      [apply full_length_printed_listing | apply full_length_printed_listing | simpl; lia].
Qed.

Lemma verify_prints_at_most_seven_times_witness :
  1 <= List.length (output_of (verify_weights sound) seven_fs).
Proof.
  apply (verify_prints_at_most_seven_times sound seven_fs);
    intros x; reflexivity.
Defined.

End PyFacts.

(** * The first embedding is the second on tame collaborators *)

Lemma lift_env_tame (env : environ) : Py.tame (lift_env env).
Proof.
  repeat split; intros; simpl.
  - destruct (fst (import_deepface env fs)); exact I.
  - destruct (fst (build_model env m fs)); exact I.
  - destruct (import_functions env); exact I.
Qed.

Lemma lift_trace_app (t u : list event) :
  lift_trace (t ++ u) = lift_trace t ++ lift_trace u.
Proof. apply flat_map_app. Qed.

Lemma lift_trace_prints (ls : list string) :
  lift_trace (map EvPrint ls) = map Py.EvPrint ls.
Proof. induction ls as [|l ls IH]; simpl; [|rewrite IH]; reflexivity. Qed.

Lemma lift_models_run (env : environ) (ms : list string) (fs : filesystem) :
  Py.models_run (lift_env env) ms fs
  = (lift_trace (fst (models_run env ms fs)), snd (models_run env ms fs)).
Proof.
  revert fs. induction ms as [|m ms IH]; intros fs; simpl; [reflexivity|].
  rewrite IH. destruct (build_model env m fs) as [r fs1]. simpl.
  destruct (models_run env ms fs1) as [t fs2]. simpl.
  destruct r; reflexivity.
Qed.

Lemma lift_detectors_run (env : environ) (ds : list string) (fs : filesystem) :
  Py.detectors_run (lift_env env) ds fs = (lift_trace (detectors_run env ds), fs).
Proof.
  induction ds as [|d ds IH]; simpl; [reflexivity|].
  rewrite IH. unfold detector_report.
  destruct (import_functions env); reflexivity.
Qed.

Lemma lift_preload_trace (env : environ) (ms ds : list string) (fs : filesystem) :
  Py.preload_trace (lift_env env) ms ds fs
  = lift_trace (preload_trace env ms ds fs)
  /\ Py.preload_fs (lift_env env) ms ds fs = preload_fs env ms fs
  /\ Py.import_succeeds (lift_env env) fs = import_succeeds env fs.
Proof.
  unfold Py.preload_trace, preload_trace, Py.preload_fs, preload_fs,
    Py.import_succeeds, import_succeeds. simpl.
  destruct (import_deepface env fs) as [[e|] fs1]; simpl.
  - repeat split.
  - unfold Py.preload_ok_trace, preload_ok_trace.
    rewrite lift_models_run, lift_detectors_run. cbn [fst snd].
    unfold lift_trace, banner, footer. simpl.
    rewrite flat_map_app. simpl. rewrite flat_map_app. simpl.
    repeat split.
Qed.

Lemma lift_listing_trace (dir : path) (files : list path) :
  Py.listing_trace dir files = lift_trace (listing_trace dir files).
Proof.
  unfold Py.listing_trace, listing_trace, lift_trace.
  cbn [flat_map lift_event app]. f_equal.
  rewrite flat_map_app. f_equal.
  - generalize (firstn 5 files). intros l.
    induction l as [|f l IH]; simpl; [|rewrite IH]; reflexivity.
  - destruct (Nat.ltb 5 (List.length files)); reflexivity.
Qed.

Lemma lift_verify_trace (env : environ) (fs : filesystem) :
  Py.verify_trace (lift_env env) fs = lift_trace (verify_trace env fs).
Proof.
  unfold Py.verify_trace, verify_trace. simpl.
  destruct (home_dir env) as [e | h]; [reflexivity|]. simpl. do 2 f_equal.
  destruct (fs (weights_dir_of h)) as [| e | | [es | | e]]; try reflexivity;
    simpl; f_equal; apply lift_listing_trace.
Qed.

(** On the environments of the first embedding the two embeddings run
    alike: same result, same filesystem, same events. *)
Theorem first_embedding_is_the_tame_case
        (env : environ) (ms ds : list string) (fs : filesystem) :
  Py.preload_with (lift_env env) ms ds (Py.start fs)
  = lift_run (preload_with env ms ds (start fs))
  /\ Py.verify_weights (lift_env env) (Py.start fs)
     = lift_run (verify_weights env (start fs))
  /\ Py.main (lift_env env) (Py.start fs) = lift_run (main env (start fs)).
Proof.
  destruct (lift_env_tame env) as (Hw & Hs & Hl).
  destruct (lift_preload_trace env ms ds fs) as (Ht & Hfs & Hok).
  destruct (lift_preload_trace env models detectors fs) as (Ht' & Hfs' & _).
  unfold lift_run. repeat split.
  - rewrite (PyFacts.full_preload_with_run _ Hw Hs Hl), preload_with_run.
    simpl. rewrite Ht, Hfs, Hok. reflexivity.
  - rewrite (PyFacts.full_verify_weights_run _ Hw Hs), verify_weights_run.
    simpl. rewrite lift_verify_trace. reflexivity.
  - rewrite (PyFacts.full_main_run _ Hw Hs Hl), main_run_full.
    cbn [fst snd w_fs w_trace start Py.start Py.w_fs Py.w_trace app lift_outcome].
    rewrite Ht', Hfs', Hok, lift_verify_trace.
    change (EvPrint intro_line
            :: preload_trace env models detectors fs
            ++ verify_trace env (preload_fs env models fs)
            ++ [EvPrint (closing_line (import_succeeds env fs)); EvExit 0])
      with ([EvPrint intro_line]
            ++ preload_trace env models detectors fs
            ++ verify_trace env (preload_fs env models fs)
            ++ [EvPrint (closing_line (import_succeeds env fs)); EvExit 0]).
    rewrite !lift_trace_app. reflexivity.
Qed.
